(** * Pong (src/pong.py): paddles, ball physics, scoring and AI prediction

    A shallow embedding of the game logic of [src/pong.py], on two levels.

    The arithmetic level ([PaddleM], [BallM], [GameM]).  Rectangle
    coordinates are unbounded integers [Z]; Python floats (velocities,
    [dt], the random draws) are exact rationals [Q], with every operation
    the program applies to them (+, -, *, /, %, comparison, [int], [abs],
    [min], [max]) the exact one.  Rounding, infinities and NaN have no
    counterpart here, and no operation fails.  Equality of floats is [Qeq]
    ([==]).

    The checked level ([RectC], [PaddleC], [BallC], [GameC]).  The same
    functions with what the arithmetic level leaves out of the integers and
    of the failures: a [pygame.Rect] stores its four fields as C ints, so
    the derived edges wrap round and assigning a value that does not fit
    raises [TypeError]; the float quotient raises [ZeroDivisionError] on a
    zero divisor.  These functions return a [result].  Where nothing
    overflows and nothing is raised the two levels agree
    ([clamp_refines], [predict_refines]).

    External values.  What the program reads from its environment during a
    frame (pressed keys, the clock, the two [random.uniform] draws) is
    passed in explicitly. *)

From Stdlib Require Import ZArith QArith Qabs Qround Lia Lqa Bool.

Local Open Scope Z_scope.

(** ** Constants (pong.py, lines 25-29) *)

Definition WIDTH : Z := 800.
Definition HEIGHT : Z := 600.
Definition FPS : Z := 60.
Definition PADDLE_WIDTH : Z := 12.
Definition PADDLE_HEIGHT : Z := 100.
Definition BALL_SIZE : Z := 12.
Definition PADDLE_MARGIN : Z := 24.

(** ** Python numeric primitives on floats *)

Module Py.

Local Open Scope Q_scope.

(** [a < b] on floats, as a boolean. *)
Definition ltb (a b : Q) : bool :=
  match a ?= b with Lt => true | _ => false end.

(** [a <= b] on floats. *)
Definition leb (a b : Q) : bool :=
  match a ?= b with Gt => false | _ => true end.

(** [a == b] on floats. *)
Definition eqb (a b : Q) : bool :=
  match a ?= b with Eq => true | _ => false end.

(** [int(x)]: truncation toward zero. *)
Definition int (x : Q) : Z := Z.quot (Qnum x) (Zpos (Qden x)).

(** [min(a, b)]: the first argument unless the second is smaller. *)
Definition min (a b : Q) : Q := if ltb b a then b else a.

(** [max(a, b)]: the first argument unless the second is larger. *)
Definition max (a b : Q) : Q := if ltb a b then b else a.

(** [a % b] on floats: the result has the sign of [b]. *)
Definition fmod (a b : Q) : Q := a - b * inject_Z (Qfloor (a / b)).

(** [float(n)] for an integer [n]. *)
Definition float (n : Z) : Q := inject_Z n.

End Py.

(** ** pygame.Rect

    Four integer fields; the edges and the centre are derived.  Assigning to
    an edge or to the centre moves the rectangle and keeps its size.  The
    centre is half the size away from the corner; the halving is an integer
    division in C, and every rectangle of this program has an even,
    positive size (12 x 12, 12 x 100). *)

Record Rect : Set := mkRect {
  rect_x : Z;
  rect_y : Z;
  rect_w : Z;
  rect_h : Z
}.

Module RectOps.

Definition left (r : Rect) : Z := rect_x r.
Definition top (r : Rect) : Z := rect_y r.
Definition right (r : Rect) : Z := rect_x r + rect_w r.
Definition bottom (r : Rect) : Z := rect_y r + rect_h r.
Definition centerx (r : Rect) : Z := rect_x r + Z.quot (rect_w r) 2.
Definition centery (r : Rect) : Z := rect_y r + Z.quot (rect_h r) 2.
Definition center (r : Rect) : Z * Z := (centerx r, centery r).

Definition set_x (r : Rect) (v : Z) : Rect :=
  mkRect v (rect_y r) (rect_w r) (rect_h r).
Definition set_y (r : Rect) (v : Z) : Rect :=
  mkRect (rect_x r) v (rect_w r) (rect_h r).

Definition set_left (r : Rect) (v : Z) : Rect := set_x r v.
Definition set_top (r : Rect) (v : Z) : Rect := set_y r v.
Definition set_right (r : Rect) (v : Z) : Rect := set_x r (v - rect_w r).
Definition set_bottom (r : Rect) (v : Z) : Rect := set_y r (v - rect_h r).
Definition set_center (r : Rect) (c : Z * Z) : Rect :=
  mkRect (fst c - Z.quot (rect_w r) 2) (snd c - Z.quot (rect_h r) 2)
         (rect_w r) (rect_h r).

(** [a.colliderect(b)]: the interiors overlap; a rectangle with a zero
    side collides with nothing. *)
Definition colliderect (a b : Rect) : bool :=
  if (rect_w a =? 0) || (rect_h a =? 0) || (rect_w b =? 0) || (rect_h b =? 0)
  then false
  else (Z.min (rect_x a) (rect_x a + rect_w a)
          <? Z.max (rect_x b) (rect_x b + rect_w b))
    && (Z.min (rect_y a) (rect_y a + rect_h a)
          <? Z.max (rect_y b) (rect_y b + rect_h b))
    && (Z.max (rect_x a) (rect_x a + rect_w a)
          >? Z.min (rect_x b) (rect_x b + rect_w b))
    && (Z.max (rect_y a) (rect_y a + rect_h a)
          >? Z.min (rect_y b) (rect_y b + rect_h b)).

End RectOps.

Import RectOps.

(** ** Score (pong.py, lines 37-40) *)

Record Score : Set := mkScore {
  score_left : Z;
  score_right : Z
}.

(** ** Paddle (pong.py, lines 43-71) *)

Record Paddle : Set := mkPaddle {
  paddle_rect : Rect;
  paddle_speed : Q
}.

Module PaddleM.

(** [Paddle.__init__] *)
Definition init (x y : Z) (speed : Q) : Paddle :=
  mkPaddle (mkRect x y PADDLE_WIDTH PADDLE_HEIGHT) speed.

(** [Paddle._clamp] *)
Definition _clamp (p : Paddle) : Paddle :=
  let r1 := set_top (paddle_rect p) (Z.max 0 (top (paddle_rect p))) in
  let r2 := set_bottom r1 (Z.min HEIGHT (bottom r1)) in
  mkPaddle r2 (paddle_speed p).

(** [self.rect.y += n] *)
Definition shift_y (p : Paddle) (n : Z) : Paddle :=
  mkPaddle (set_y (paddle_rect p) (rect_y (paddle_rect p) + n))
           (paddle_speed p).

(** [Paddle.move_towards] *)
Definition move_towards (p : Paddle) (target_y dt : Q) : Paddle :=
  let center_y := Py.float (centery (paddle_rect p)) in
  if Py.leb (Qabs (target_y - center_y)) 1%Q then p
  else
    let direction : Q := if Py.ltb center_y target_y then 1%Q else (-1)%Q in
    let dy := (direction * paddle_speed p * dt)%Q in
    _clamp (shift_y p (Py.int dy)).

(** [Paddle.move_input] *)
Definition move_input (p : Paddle) (up down : bool) (dt : Q) : Paddle :=
  let dy : Q :=
    if up && negb down then (- paddle_speed p * dt)%Q
    else if down && negb up then (paddle_speed p * dt)%Q
    else 0%Q in
  _clamp (shift_y p (Py.int dy)).

(** The paddle's vertical extent lies in the play area. *)
Definition in_bounds (p : Paddle) : Prop :=
  0 <= top (paddle_rect p) /\ bottom (paddle_rect p) <= HEIGHT.

(** The size every paddle gets from [__init__] and keeps. *)
Definition sized (p : Paddle) : Prop :=
  rect_w (paddle_rect p) = PADDLE_WIDTH /\
  rect_h (paddle_rect p) = PADDLE_HEIGHT.

End PaddleM.

(** ** Ball (pong.py, lines 77-121)

    [vel] is a [pygame.Vector2]: two float components. *)

Record Ball : Set := mkBall {
  ball_rect : Rect;
  ball_base_speed : Q;
  ball_vel_x : Q;
  ball_vel_y : Q
}.

Module BallM.

(** [Ball.reset]; [angle] is the value drawn by
    [random.uniform(-0.35, 0.35)]. *)
Definition reset (b : Ball) (direction : Z) (angle : Q) : Ball :=
  mkBall (set_center (ball_rect b) (WIDTH / 2, HEIGHT / 2))
         (ball_base_speed b)
         (Py.float direction * ball_base_speed b)%Q
         (ball_base_speed b * angle)%Q.

(** The contract of [random.uniform(-0.35, 0.35)]. *)
Definition angle_drawn (angle : Q) : Prop :=
  (-(35 # 100) <= angle /\ angle <= 35 # 100)%Q.

(** [Ball.__init__]; [direction] is the value of
    [random.choice((-1, 1))]. *)
Definition init (x y : Z) (speed : Q) (direction : Z) (angle : Q) : Ball :=
  reset (mkBall (mkRect x y BALL_SIZE BALL_SIZE) speed 0%Q 0%Q)
        direction angle.

(** The position advance of [Ball.update] (lines 94-95). *)
Definition advance (b : Ball) (dt : Q) : Ball :=
  let r1 := set_x (ball_rect b)
              (rect_x (ball_rect b) + Py.int (ball_vel_x b * dt)%Q) in
  let r2 := set_y r1 (rect_y r1 + Py.int (ball_vel_y b * dt)%Q) in
  mkBall r2 (ball_base_speed b) (ball_vel_x b) (ball_vel_y b).

(** The wall check of [Ball.update] (lines 97-102). *)
Definition bounce_walls (b : Ball) : Ball :=
  if top (ball_rect b) <=? 0 then
    mkBall (set_top (ball_rect b) 0) (ball_base_speed b)
           (ball_vel_x b) (- ball_vel_y b)%Q
  else if bottom (ball_rect b) >=? HEIGHT then
    mkBall (set_bottom (ball_rect b) HEIGHT) (ball_base_speed b)
           (ball_vel_x b) (- ball_vel_y b)%Q
  else b.

(** [Ball.update] *)
Definition update (b : Ball) (dt : Q) : Ball := bounce_walls (advance b dt).

(** [Ball.collide_paddle] *)
Definition collide_paddle (b : Ball) (p : Paddle) : Ball :=
  if negb (colliderect (ball_rect b) (paddle_rect p)) then b
  else
    let r :=
      if Py.ltb (ball_vel_x b) 0%Q
      then set_left (ball_rect b) (right (paddle_rect p))
      else set_right (ball_rect b) (left (paddle_rect p)) in
    let vx := (- ball_vel_x b)%Q in
    let offset :=
      (Py.float (centery r - centery (paddle_rect p))
         / (Py.float PADDLE_HEIGHT / 2))%Q in
    let spin := (offset * 220)%Q in
    let vy := Py.max (Py.min (ball_vel_y b + spin)%Q 520%Q) (-520)%Q in
    let vx := (vx * (104 # 100))%Q in
    let vx := Py.max (Py.min vx 720%Q) (-720)%Q in
    mkBall r (ball_base_speed b) vx vy.

(** The size every ball gets from [__init__] and keeps. *)
Definition sized (b : Ball) : Prop :=
  rect_w (ball_rect b) = BALL_SIZE /\ rect_h (ball_rect b) = BALL_SIZE.

(** The ball's vertical extent lies in the play area. *)
Definition in_bounds (b : Ball) : Prop :=
  0 <= top (ball_rect b) /\ bottom (ball_rect b) <= HEIGHT.

End BallM.

(** ** Game (pong.py, lines 127-232) *)

Record Game : Set := mkGame {
  player : Paddle;
  ai : Paddle;
  ball : Ball;
  score : Score;
  serve_dir : Z;
  ai_reaction_ms : Z;
  ai_timer : Z;
  ai_target_y : Q;
  ai_error_margin : Z
}.

(** What one frame reads from its environment. *)
Record Frame : Set := mkFrame {
  tick_ms : Z;          (* clock.tick(FPS), also clock.get_time() *)
  quit : bool;          (* a QUIT or ESCAPE event is pending *)
  key_w : bool;
  key_s : bool;
  serve_angle : Q;      (* random.uniform(-0.35, 0.35) of a reset *)
  ai_noise : Q          (* random.uniform(-margin, margin) of the AI *)
}.

Module GameM.

(** [Game.__init__]; the three choices and the angle are the random
    draws of the constructor. *)
Definition init (ball_dir : Z) (angle : Q) (serve : Z) : Game :=
  let left_x := PADDLE_MARGIN in
  let right_x := WIDTH - PADDLE_MARGIN - PADDLE_WIDTH in
  let start_y := HEIGHT / 2 - PADDLE_HEIGHT / 2 in
  mkGame (PaddleM.init left_x start_y 520%Q)
         (PaddleM.init right_x start_y 500%Q)
         (BallM.init (WIDTH / 2 - BALL_SIZE / 2) (HEIGHT / 2 - BALL_SIZE / 2)
                     420%Q ball_dir angle)
         (mkScore 0 0) serve 140 0 (Py.float (HEIGHT / 2)) 32.

(** The fold of line 229-231: mirror [simulated_y] into [0, HEIGHT]. *)
Definition reflect (simulated_y : Q) : Q :=
  let period := Py.float (2 * HEIGHT) in
  let mod_ := Py.fmod simulated_y period in
  if Py.leb mod_ (Py.float HEIGHT) then mod_ else (period - mod_)%Q.

(** [time_to_x] of line 222, for a ball with a horizontal velocity. *)
Definition time_to_x (g : Game) (x : Z) : Q :=
  let pos_x := Py.float (centerx (ball_rect (ball g))) in
  ((Py.float x - pos_x) / ball_vel_x (ball g))%Q.

(** [simulated_y] of line 227, for a ball that reaches [x]. *)
Definition simulated_y (g : Game) (x : Z) : Q :=
  let pos_y := Py.float (centery (ball_rect (ball g))) in
  (pos_y + ball_vel_y (ball g) * time_to_x g x)%Q.

(** [Game._predict_ball_y_at_x] *)
Definition _predict_ball_y_at_x (g : Game) (x : Z) : Q :=
  let pos_y := Py.float (centery (ball_rect (ball g))) in
  let vel_x := ball_vel_x (ball g) in
  if Py.eqb vel_x 0%Q then pos_y
  else if Py.leb (time_to_x g x) 0%Q then pos_y
  else reflect (simulated_y g x).

(** [Game._update_ai] *)
Definition _update_ai (g : Game) (dt : Q) (f : Frame) : Game :=
  let ball_moving_to_ai := Py.ltb 0%Q (ball_vel_x (ball g)) in
  let timer := ai_timer g + tick_ms f in
  let '(timer, target) :=
    if timer >=? ai_reaction_ms g then
      (0,
       if ball_moving_to_ai then
         let predicted_y := _predict_ball_y_at_x g (centerx (paddle_rect (ai g))) in
         Py.max 0%Q (Py.min (Py.float HEIGHT) (predicted_y + ai_noise f)%Q)
       else Py.float (HEIGHT / 2))
    else (timer, ai_target_y g) in
  mkGame (player g) (PaddleM.move_towards (ai g) target dt) (ball g)
         (score g) (serve_dir g) (ai_reaction_ms g) timer target
         (ai_error_margin g).

(** The scoring check of [Game._update] (lines 184-190). *)
Definition scoring (g : Game) (f : Frame) : Game :=
  if right (ball_rect (ball g)) <? 0 then
    mkGame (player g) (ai g) (BallM.reset (ball g) 1 (serve_angle f))
           (mkScore (score_left (score g)) (score_right (score g) + 1))
           (serve_dir g) (ai_reaction_ms g) (ai_timer g) (ai_target_y g)
           (ai_error_margin g)
  else if left (ball_rect (ball g)) >? WIDTH then
    mkGame (player g) (ai g) (BallM.reset (ball g) (-1) (serve_angle f))
           (mkScore (score_left (score g) + 1) (score_right (score g)))
           (serve_dir g) (ai_reaction_ms g) (ai_timer g) (ai_target_y g)
           (ai_error_margin g)
  else g.

(** [Game._update] up to the scoring check (lines 173-182): player
    input, ball advance, the two paddle collisions. *)
Definition before_scoring (g : Game) (dt : Q) (f : Frame) : Game :=
  let player' := PaddleM.move_input (player g) (key_w f) (key_s f) dt in
  let ball1 := BallM.update (ball g) dt in
  let ball2 := BallM.collide_paddle ball1 player' in
  let ball3 := BallM.collide_paddle ball2 (ai g) in
  mkGame player' (ai g) ball3 (score g) (serve_dir g) (ai_reaction_ms g)
         (ai_timer g) (ai_target_y g) (ai_error_margin g).

(** [Game._update] *)
Definition _update (g : Game) (dt : Q) (f : Frame) : Game :=
  _update_ai (scoring (before_scoring g dt f) f) dt f.

(** [Game.run] over the frames the environment supplies: the loop ends
    at the first frame with a quit event, before that frame's update. *)
Fixpoint run (g : Game) (frames : list Frame) : Game :=
  match frames with
  | nil => g
  | cons f rest =>
      let dt := (Py.float (tick_ms f) / 1000)%Q in
      if quit f then g else run (_update g dt f) rest
  end.

End GameM.

(** ** Exceptions and results

    The two exceptions the game logic can raise, and the outcome of a call
    that may raise. *)

Inductive exn : Set :=
| TypeError
| ZeroDivisionError.

Inductive result (A : Type) : Type :=
| Ok (a : A)
| Raise (e : exn).

Arguments Ok {A} a.
Arguments Raise {A} e.

Definition bind {A B : Type} (r : result A) (k : A -> result B) : result B :=
  match r with
  | Ok a => k a
  | Raise e => Raise e
  end.

Declare Scope result_scope.
Delimit Scope result_scope with result.
Notation "x <- e ;; k" := (bind e (fun x => k))
  (at level 61, e at next level, right associativity) : result_scope.

(** ** C ints

    The range of the fields of a [pygame.Rect], and the wrap-around of C
    int arithmetic on them. *)

Module CInt.

Definition INT_MAX : Z := 2147483647.
Definition INT_MIN : Z := -2147483648.

(** The value can be stored in a C int. *)
Definition fits (z : Z) : bool := (INT_MIN <=? z) && (z <=? INT_MAX).

(** The C int an out-of-range sum or difference comes out as. *)
Definition wrap (z : Z) : Z := (z - INT_MIN) mod 2 ^ 32 + INT_MIN.

(** Storing a Python int in a field: [TypeError] when it does not fit. *)
Definition assign (v : Z) : result Z :=
  if fits v then Ok v else Raise TypeError.

End CInt.

(** ** pygame.Rect, checked

    The accessors the game uses, on C ints: a derived edge is a C sum, an
    assignment stores a Python int. *)

Module RectC.

Local Open Scope result_scope.

(** [pygame.Rect(x, y, w, h)] *)
Definition init (x y w h : Z) : result Rect :=
  x' <- CInt.assign x ;; y' <- CInt.assign y ;;
  w' <- CInt.assign w ;; h' <- CInt.assign h ;;
  Ok (mkRect x' y' w' h').

Definition top (r : Rect) : Z := rect_y r.
Definition bottom (r : Rect) : Z := CInt.wrap (rect_y r + rect_h r).
Definition centery (r : Rect) : Z :=
  CInt.wrap (rect_y r + Z.quot (rect_h r) 2).

Definition set_x (r : Rect) (v : Z) : result Rect :=
  v' <- CInt.assign v ;; Ok (RectOps.set_x r v').
Definition set_y (r : Rect) (v : Z) : result Rect :=
  v' <- CInt.assign v ;; Ok (RectOps.set_y r v').
Definition set_top (r : Rect) (v : Z) : result Rect := set_y r v.
Definition set_bottom (r : Rect) (v : Z) : result Rect :=
  v' <- CInt.assign v ;; Ok (RectOps.set_y r (CInt.wrap (v' - rect_h r))).

End RectC.

(** ** Paddle, checked (pong.py, lines 43-71) *)

Module PaddleC.

Local Open Scope result_scope.

(** [Paddle.__init__] *)
Definition init (x y : Z) (speed : Q) : result Paddle :=
  r <- RectC.init x y PADDLE_WIDTH PADDLE_HEIGHT ;; Ok (mkPaddle r speed).

(** [Paddle._clamp] *)
Definition _clamp (p : Paddle) : result Paddle :=
  r1 <- RectC.set_top (paddle_rect p) (Z.max 0 (RectC.top (paddle_rect p))) ;;
  r2 <- RectC.set_bottom r1 (Z.min HEIGHT (RectC.bottom r1)) ;;
  Ok (mkPaddle r2 (paddle_speed p)).

(** [self.rect.y += n] *)
Definition shift_y (p : Paddle) (n : Z) : result Paddle :=
  r <- RectC.set_y (paddle_rect p) (rect_y (paddle_rect p) + n) ;;
  Ok (mkPaddle r (paddle_speed p)).

(** The displacement [dy] of [move_towards] (lines 55-56), past the
    guard. *)
Definition towards_dy (p : Paddle) (target_y dt : Q) : Q :=
  let center_y := Py.float (RectC.centery (paddle_rect p)) in
  let direction : Q := if Py.ltb center_y target_y then 1%Q else (-1)%Q in
  (direction * paddle_speed p * dt)%Q.

(** [Paddle.move_towards] *)
Definition move_towards (p : Paddle) (target_y dt : Q) : result Paddle :=
  let center_y := Py.float (RectC.centery (paddle_rect p)) in
  if Py.leb (Qabs (target_y - center_y)) 1%Q then Ok p
  else p1 <- shift_y p (Py.int (towards_dy p target_y dt)) ;; _clamp p1.

(** The displacement [dy] of [move_input] (lines 61-65). *)
Definition input_dy (p : Paddle) (up down : bool) (dt : Q) : Q :=
  if up && negb down then (- paddle_speed p * dt)%Q
  else if down && negb up then (paddle_speed p * dt)%Q
  else 0%Q.

(** [Paddle.move_input] *)
Definition move_input (p : Paddle) (up down : bool) (dt : Q)
    : result Paddle :=
  p1 <- shift_y p (Py.int (input_dy p up down dt)) ;; _clamp p1.

(** The paddle's row can be stored, and so can its bottom edge. *)
Definition in_range (p : Paddle) : Prop :=
  CInt.INT_MIN <= rect_y (paddle_rect p) <= CInt.INT_MAX - PADDLE_HEIGHT.

End PaddleC.

(** ** Ball, checked (pong.py, lines 93-102) *)

Module BallC.

Local Open Scope result_scope.

(** The two [+=] of [Ball.update] (lines 94-95) for the pixel counts the
    truncations gave. *)
Definition move_by (b : Ball) (dx dy : Z) : result Ball :=
  r1 <- RectC.set_x (ball_rect b) (rect_x (ball_rect b) + dx) ;;
  r2 <- RectC.set_y r1 (rect_y r1 + dy) ;;
  Ok (mkBall r2 (ball_base_speed b) (ball_vel_x b) (ball_vel_y b)).

(** The wall check of [Ball.update] (lines 97-102). *)
Definition bounce_walls (b : Ball) : result Ball :=
  if RectC.top (ball_rect b) <=? 0 then
    r <- RectC.set_top (ball_rect b) 0 ;;
    Ok (mkBall r (ball_base_speed b) (ball_vel_x b) (- ball_vel_y b)%Q)
  else if RectC.bottom (ball_rect b) >=? HEIGHT then
    r <- RectC.set_bottom (ball_rect b) HEIGHT ;;
    Ok (mkBall r (ball_base_speed b) (ball_vel_x b) (- ball_vel_y b)%Q)
  else Ok b.

(** [Ball.update] *)
Definition update (b : Ball) (dt : Q) : result Ball :=
  b1 <- move_by b (Py.int (ball_vel_x b * dt)%Q)
                  (Py.int (ball_vel_y b * dt)%Q) ;;
  bounce_walls b1.

End BallC.

(** ** Prediction, checked (pong.py, lines 214-232) *)

Module GameC.

Local Open Scope result_scope.

(** [a / b] on floats. *)
Definition truediv (a b : Q) : result Q :=
  if Py.eqb b 0%Q then Raise ZeroDivisionError else Ok (a / b)%Q.

(** [time_to_x] of line 222. *)
Definition time_to_x (g : Game) (x : Z) : result Q :=
  let pos_x := Py.float (centerx (ball_rect (ball g))) in
  truediv (Py.float x - pos_x)%Q (ball_vel_x (ball g)).

(** [Game._predict_ball_y_at_x] *)
Definition _predict_ball_y_at_x (g : Game) (x : Z) : result Q :=
  let pos_y := Py.float (centery (ball_rect (ball g))) in
  let vel_y := ball_vel_y (ball g) in
  if Py.eqb (ball_vel_x (ball g)) 0%Q then Ok pos_y
  else
    t <- time_to_x g x ;;
    if Py.leb t 0%Q then Ok pos_y
    else Ok (GameM.reflect (pos_y + vel_y * t)%Q).

End GameC.

(** ** Events (pong.py, lines 164-170)

    The events [pygame.event.get()] hands to [Game._handle_events]: only
    the type, and for a key press the key, are looked at. *)

Inductive Key : Set :=
| K_ESCAPE
| K_w
| K_s
| K_other (code : Z).

Inductive Event : Set :=
| QUIT
| KEYDOWN (key : Key)
| KEYUP (key : Key)
| OTHER (type : Z).

(** The test of one event: a window close or an escape key press. *)
Definition stops (e : Event) : bool :=
  match e with
  | QUIT => true
  | KEYDOWN K_ESCAPE => true
  | _ => false
  end.

(** [Game._handle_events]: [False] at the first stopping event, [True]
    when the queue holds none. *)
Fixpoint _handle_events (events : list Event) : bool :=
  match events with
  | nil => true
  | cons e rest => if stops e then false else _handle_events rest
  end.

(** The frame the loop of [Game.run] sees for a tick, an event queue, the
    key state and the random draws. *)
Definition frame_of (ms : Z) (events : list Event) (w s : bool)
    (angle noise : Q) : Frame :=
  mkFrame ms (negb (_handle_events events)) w s angle noise.

(** ** Velocity bounds

    The caps of [Ball.collide_paddle] and the serve speed of the game. *)
Definition vel_capped (b : Ball) : Prop :=
  (Qabs (ball_vel_x b) <= 720)%Q /\ (Qabs (ball_vel_y b) <= 520)%Q.

Definition vel_in_play (b : Ball) : Prop :=
  (420 <= Qabs (ball_vel_x b))%Q /\ vel_capped b /\
  ball_base_speed b = 420%Q.

(** The draws of a frame obey the contract of [random.uniform]. *)
Definition frame_drawn (f : Frame) : Prop :=
  BallM.angle_drawn (serve_angle f).

(** ** What a game never changes

    The paddles' columns, sizes and speeds, the ball's size and base speed,
    and the AI's parameters. *)
Definition same_paddle_setup (p p' : Paddle) : Prop :=
  rect_x (paddle_rect p') = rect_x (paddle_rect p) /\
  rect_w (paddle_rect p') = rect_w (paddle_rect p) /\
  rect_h (paddle_rect p') = rect_h (paddle_rect p) /\
  paddle_speed p' = paddle_speed p.

Definition same_setup (g g' : Game) : Prop :=
  same_paddle_setup (player g) (player g') /\
  same_paddle_setup (ai g) (ai g') /\
  (rect_w (ball_rect (ball g')) = rect_w (ball_rect (ball g)) /\
   rect_h (ball_rect (ball g')) = rect_h (ball_rect (ball g)) /\
   ball_base_speed (ball g') = ball_base_speed (ball g)) /\
  (serve_dir g' = serve_dir g /\ ai_reaction_ms g' = ai_reaction_ms g /\
   ai_error_margin g' = ai_error_margin g).

(** No frame of the list carries a quit event. *)
Definition no_quit (frames : list Frame) : bool :=
  List.forallb (fun f => negb (quit f)) frames.

(** ** The state invariant

    Both paddles and the ball have the sizes of their constructors and lie
    vertically inside the play area. *)
Definition game_inv (g : Game) : Prop :=
  (PaddleM.sized (player g) /\ PaddleM.in_bounds (player g)) /\
  (PaddleM.sized (ai g) /\ PaddleM.in_bounds (ai g)) /\
  (BallM.sized (ball g) /\ BallM.in_bounds (ball g)).

(** ** Concrete states

    The states at which the properties below are instantiated. *)

(** Two balls at a wall: one resting on the top wall and
    moving down, one resting on the bottom wall and moving up, both too
    slowly to advance a whole pixel in 1/64 s. *)
Definition ball_leaving_top : Ball :=
  mkBall (mkRect 394 0 BALL_SIZE BALL_SIZE) 420%Q 420%Q 32%Q.
Definition ball_leaving_bottom : Ball :=
  mkBall (mkRect 394 (HEIGHT - BALL_SIZE) BALL_SIZE BALL_SIZE)
         420%Q 420%Q (-32)%Q.

(** A paddle built above the screen,
    the paddle of a new game, and a ball placed above the screen. *)
Definition paddle_above_screen : Paddle := PaddleM.init 24 (-50) 520%Q.
Definition paddle_at_start : Paddle := PaddleM.init 24 250 520%Q.
Definition ball_above_screen : Ball :=
  mkBall (mkRect 394 (-5) BALL_SIZE BALL_SIZE) 420%Q 420%Q 0%Q.


(** A game whose ball sits at the screen centre with the given velocity,
    everything else as [Game.__init__] leaves it. *)
Definition game_with_vel (vx vy : Q) : Game :=
  mkGame (PaddleM.init 24 250 520%Q) (PaddleM.init 764 250 500%Q)
         (mkBall (mkRect 394 294 BALL_SIZE BALL_SIZE) 420%Q vx vy)
         (mkScore 0 0) 1 140 0 300%Q 32.

(** * Properties *)

(** Projections of a freshly built record, and the rectangle accessors,
    without unfolding any arithmetic. *)
Ltac rect_simpl :=
  unfold BallM.advance, PaddleM.shift_y in *;
  unfold RectOps.top, RectOps.bottom, RectOps.left, RectOps.right,
    RectOps.set_top, RectOps.set_bottom, RectOps.set_left,
    RectOps.set_right in *;
  unfold RectOps.set_x, RectOps.set_y in *;
  cbn [ball_rect ball_vel_x ball_vel_y ball_base_speed paddle_rect
       paddle_speed rect_x rect_y rect_w rect_h fst snd] in *.

(** ** The float primitives *)

Section PyFacts.

Local Open Scope Q_scope.

Lemma ltb_true (a b : Q) : Py.ltb a b = true <-> a < b.
Proof.
  unfold Py.ltb. rewrite Qlt_alt.
  destruct (a ?= b); split; intro H; congruence.
Qed.

Lemma ltb_false (a b : Q) : Py.ltb a b = false <-> b <= a.
Proof.
  unfold Py.ltb. rewrite Qge_alt.
  destruct (a ?= b); split; intro H; congruence.
Qed.

Lemma leb_true (a b : Q) : Py.leb a b = true <-> a <= b.
Proof.
  unfold Py.leb. rewrite Qle_alt.
  destruct (a ?= b); split; intro H; congruence.
Qed.

Lemma leb_false (a b : Q) : Py.leb a b = false <-> b < a.
Proof.
  unfold Py.leb. rewrite Qgt_alt.
  destruct (a ?= b); split; intro H; congruence.
Qed.

Lemma eqb_true (a b : Q) : Py.eqb a b = true <-> a == b.
Proof.
  unfold Py.eqb. rewrite Qeq_alt.
  destruct (a ?= b); split; intro H; congruence.
Qed.

(** [int] truncates toward zero: it keeps the sign and sends the open
    interval (-1, 1) to 0. *)

Lemma int_nonpos (x : Q) : x <= 0 -> (Py.int x <= 0)%Z.
Proof.
  destruct x as [n d]. unfold Qle, Py.int. simpl. intro H.
  assert (Hd : (0 < Z.pos d)%Z) by lia.
  Z.to_euclidean_division_equations. nia.
Qed.

Lemma int_nonneg (x : Q) : 0 <= x -> (0 <= Py.int x)%Z.
Proof.
  destruct x as [n d]. unfold Qle, Py.int. simpl. intro H.
  assert (Hd : (0 < Z.pos d)%Z) by lia.
  Z.to_euclidean_division_equations. nia.
Qed.

Lemma int_small (x : Q) : Qabs x < 1 -> Py.int x = 0%Z.
Proof.
  destruct x as [n d]. unfold Qlt, Py.int. simpl. intro H.
  assert (Hd : (0 < Z.pos d)%Z) by lia.
  Z.to_euclidean_division_equations. nia.
Qed.

(** Signs of the displacement [v * dt]. *)

Lemma mul_nonpos_nonneg (v dt : Q) : v <= 0 -> 0 <= dt -> v * dt <= 0.
Proof.
  destruct v as [n d], dt as [m e]. unfold Qle, Qmult. simpl. nia.
Qed.

Lemma mul_nonneg_nonneg (v dt : Q) : 0 <= v -> 0 <= dt -> 0 <= v * dt.
Proof.
  destruct v as [n d], dt as [m e]. unfold Qle, Qmult. simpl. nia.
Qed.

(** The velocity clamp [max(min(v, hi), lo)]. *)

Lemma clamp_bounds (v lo hi : Q) :
  lo <= hi -> lo <= Py.max (Py.min v hi) lo <= hi.
Proof.
  intro Hlh. unfold Py.max, Py.min.
  destruct (Py.ltb hi v) eqn:E1.
  - destruct (Py.ltb hi lo) eqn:E2.
    + apply ltb_true in E2. lra.
    + split; [assumption | apply Qle_refl].
  - apply ltb_false in E1.
    destruct (Py.ltb v lo) eqn:E2.
    + split; [apply Qle_refl | assumption].
    + apply ltb_false in E2. split; assumption.
Qed.

Lemma clamp_inside (v lo hi : Q) :
  lo <= v -> v <= hi -> Py.max (Py.min v hi) lo = v.
Proof.
  intros H1 H2. unfold Py.max, Py.min.
  assert (E1 : Py.ltb hi v = false) by (apply ltb_false; assumption).
  rewrite E1.
  assert (E2 : Py.ltb v lo = false) by (apply ltb_false; assumption).
  rewrite E2. reflexivity.
Qed.

Lemma clamp_pos (v lo hi : Q) :
  lo < 0 -> 0 < hi -> 0 < v -> 0 < Py.max (Py.min v hi) lo.
Proof.
  intros Hlo Hhi Hv. unfold Py.max, Py.min.
  destruct (Py.ltb hi v) eqn:E1.
  - destruct (Py.ltb hi lo) eqn:E2; [apply ltb_true in E2; lra | assumption].
  - destruct (Py.ltb v lo) eqn:E2; [apply ltb_true in E2; lra | assumption].
Qed.

Lemma clamp_neg (v lo hi : Q) :
  lo < 0 -> 0 < hi -> v < 0 -> Py.max (Py.min v hi) lo < 0.
Proof.
  intros Hlo Hhi Hv. unfold Py.max, Py.min.
  destruct (Py.ltb hi v) eqn:E1.
  - apply ltb_true in E1. lra.
  - destruct (Py.ltb v lo) eqn:E2; assumption.
Qed.

End PyFacts.

(** ** Paddle *)

Section PaddleFacts.

Lemma sized_init (x y : Z) (speed : Q) : PaddleM.sized (PaddleM.init x y speed).
Proof. split; reflexivity. Qed.

Lemma sized_clamp (p : Paddle) : PaddleM.sized p -> PaddleM.sized (PaddleM._clamp p).
Proof. intros [Hw Hh]. split; simpl; assumption. Qed.

Lemma sized_shift_y (p : Paddle) (n : Z) :
  PaddleM.sized p -> PaddleM.sized (PaddleM.shift_y p n).
Proof. intros [Hw Hh]. split; simpl; assumption. Qed.

Lemma sized_move_input (p : Paddle) (up down : bool) (dt : Q) :
  PaddleM.sized p -> PaddleM.sized (PaddleM.move_input p up down dt).
Proof. intro H. unfold PaddleM.move_input. auto using sized_clamp, sized_shift_y. Qed.

Lemma sized_move_towards (p : Paddle) (target_y dt : Q) :
  PaddleM.sized p -> PaddleM.sized (PaddleM.move_towards p target_y dt).
Proof.
  intro H. unfold PaddleM.move_towards.
  destruct (Py.leb _ _); auto using sized_clamp, sized_shift_y.
Qed.

(** [_clamp] on a paddle no taller than the screen. *)
Lemma clamp_in_bounds (p : Paddle) :
  rect_h (paddle_rect p) <= HEIGHT -> PaddleM.in_bounds (PaddleM._clamp p).
Proof.
  intro Hh. unfold PaddleM.in_bounds, PaddleM._clamp, top, bottom,
    set_top, set_bottom, set_y. simpl. lia.
Qed.

(** [_clamp] moves nothing when the paddle is already inside. *)
Lemma clamp_id (p : Paddle) : PaddleM.in_bounds p -> PaddleM._clamp p = p.
Proof.
  destruct p as [[x y w h] s].
  unfold PaddleM.in_bounds, PaddleM._clamp, top, bottom, set_top,
    set_bottom, set_y. simpl. intros [H0 H1].
  f_equal. f_equal. lia.
Qed.

Lemma shift_y_0 (p : Paddle) : PaddleM.shift_y p 0 = p.
Proof.
  destruct p as [[x y w h] s]. unfold PaddleM.shift_y, set_y. simpl.
  f_equal. f_equal. lia.
Qed.

(** Once inside the play area, a paddle stays inside under either move. *)
Lemma move_towards_keeps_bounds (p : Paddle) (target_y dt : Q) :
  PaddleM.sized p -> PaddleM.in_bounds p ->
  PaddleM.in_bounds (PaddleM.move_towards p target_y dt).
Proof.
  intros [_ Hh] Hin. unfold PaddleM.move_towards.
  destruct (Py.leb _ _); [assumption |].
  apply clamp_in_bounds. simpl. rewrite Hh. unfold PADDLE_HEIGHT, HEIGHT. lia.
Qed.

End PaddleFacts.

(** On the arithmetic level, where no coordinate overflows: for every
    paddle (of the size [__init__] gives it), whatever its position, after
    [_clamp] the paddle has [0 <= top] and
    [bottom <= HEIGHT]; so it has after [move_input], for any keys and any
    [dt], and after [move_towards], for any target and any [dt], whenever
    that call reaches its clamp step, that is, whenever the target is more
    than 1 away from the paddle's centre; and a paddle that is inside the
    play area is still inside after [move_towards] with any target. *)
Theorem paddle_clamped_after_move (p : Paddle) :
  PaddleM.sized p ->
  PaddleM.in_bounds (PaddleM._clamp p) /\
  (forall (up down : bool) (dt : Q),
      PaddleM.in_bounds (PaddleM.move_input p up down dt)) /\
  (forall (target_y dt : Q),
      (1 < Qabs (target_y - Py.float (centery (paddle_rect p))))%Q ->
      PaddleM.in_bounds (PaddleM.move_towards p target_y dt)) /\
  (forall (target_y dt : Q),
      PaddleM.in_bounds p ->
      PaddleM.in_bounds (PaddleM.move_towards p target_y dt)).
Proof.
  intros Hs. pose proof Hs as [Hw Hh].
  assert (Hle : forall n, rect_h (paddle_rect (PaddleM.shift_y p n)) <= HEIGHT).
  { intro n. simpl. rewrite Hh. unfold PADDLE_HEIGHT, HEIGHT. lia. }
  split; [| split; [| split]].
  - apply clamp_in_bounds. rewrite Hh. unfold PADDLE_HEIGHT, HEIGHT. lia.
  - intros up down dt. unfold PaddleM.move_input. apply clamp_in_bounds, Hle.
  - intros target_y dt Hfar. unfold PaddleM.move_towards.
    apply leb_false in Hfar. rewrite Hfar.
    apply clamp_in_bounds, Hle.
  - intros target_y dt Hin. apply move_towards_keeps_bounds; assumption.
Qed.

Lemma paddle_clamped_after_move_witness :
  let p := PaddleM.init 24 (-50) 520%Q in
  PaddleM.in_bounds (PaddleM._clamp p) /\
  PaddleM.in_bounds (PaddleM.move_input p true false (1 # 60)) /\
  PaddleM.in_bounds (PaddleM.move_towards p 300%Q (1 # 60)).
Proof.
  intro p.
  assert (Hs : PaddleM.sized p) by (split; reflexivity).
  destruct (paddle_clamped_after_move p Hs) as [H1 [H2 [H3 _]]].
  split; [exact H1 | split; [apply H2 | apply H3]].
  vm_compute. reflexivity.
Defined.

(** ** Ball: paddle collision *)

Section CollideFacts.

Local Open Scope Q_scope.

(** The horizontal velocity a hit leaves: negated, sped up, clamped. *)
Lemma collide_vel_x (b : Ball) (p : Paddle) :
  colliderect (ball_rect b) (paddle_rect p) = true ->
  ball_vel_x (BallM.collide_paddle b p)
  = Py.max (Py.min (- ball_vel_x b * (104 # 100)) 720) (-720).
Proof. intro Hc. unfold BallM.collide_paddle. rewrite Hc. reflexivity. Qed.

(** The rectangle a hit leaves. *)
Lemma collide_rect (b : Ball) (p : Paddle) :
  colliderect (ball_rect b) (paddle_rect p) = true ->
  ball_rect (BallM.collide_paddle b p)
  = if Py.ltb (ball_vel_x b) 0
    then set_left (ball_rect b) (right (paddle_rect p))
    else set_right (ball_rect b) (left (paddle_rect p)).
Proof. intro Hc. unfold BallM.collide_paddle. rewrite Hc. reflexivity. Qed.

Lemma collide_vel_y_bounds (b : Ball) (p : Paddle) :
  colliderect (ball_rect b) (paddle_rect p) = true ->
  -520 <= ball_vel_y (BallM.collide_paddle b p) <= 520.
Proof.
  intro Hc. unfold BallM.collide_paddle. rewrite Hc. simpl.
  apply clamp_bounds. lra.
Qed.

Lemma sized_collide (b : Ball) (p : Paddle) :
  BallM.sized b -> BallM.sized (BallM.collide_paddle b p).
Proof.
  intros [Hw Hh]. unfold BallM.collide_paddle.
  destruct (negb _); [split; assumption |].
  destruct (Py.ltb _ _); split; simpl; assumption.
Qed.

(** What an overlap says about the horizontal extents. *)
Lemma colliderect_x (a c : Rect) :
  colliderect a c = true ->
  (Z.min (rect_x a) (rect_x a + rect_w a)
     < Z.max (rect_x c) (rect_x c + rect_w c))%Z /\
  (Z.min (rect_x c) (rect_x c + rect_w c)
     < Z.max (rect_x a) (rect_x a + rect_w a))%Z.
Proof.
  unfold colliderect. destruct (_ || _)%bool; [discriminate |].
  rewrite !andb_true_iff, !Z.ltb_lt, !Z.gtb_ltb, !Z.ltb_lt. tauto.
Qed.

(** After a hit the two rectangles no longer overlap. *)
Lemma collide_paddle_separates (b : Ball) (p : Paddle) :
  BallM.sized b -> PaddleM.sized p ->
  colliderect (ball_rect b) (paddle_rect p) = true ->
  colliderect (ball_rect (BallM.collide_paddle b p)) (paddle_rect p) = false.
Proof.
  intros [Hbw Hbh] [Hpw Hph] Hc. rewrite (collide_rect _ _ Hc).
  unfold BALL_SIZE in Hbw. unfold PADDLE_WIDTH in Hpw.
  match goal with |- ?c = false => destruct c eqn:E end; [| reflexivity].
  apply colliderect_x in E. revert E.
  destruct (Py.ltb _ _); unfold set_left, set_right, set_x, right, left;
    simpl; lia.
Qed.

End CollideFacts.

(** C8. When the ball's rectangle does not intersect the paddle's,
    [collide_paddle] returns the ball as it was: rectangle, base speed and
    both velocity components. *)
Theorem collide_paddle_miss (b : Ball) (p : Paddle) :
  colliderect (ball_rect b) (paddle_rect p) = false ->
  BallM.collide_paddle b p = b.
Proof. intro Hc. unfold BallM.collide_paddle. rewrite Hc. reflexivity. Qed.

Lemma collide_paddle_miss_witness :
  let b := mkBall (mkRect 394 294 12 12) 420%Q 420%Q 0%Q in
  let p := PaddleM.init 24 250 520%Q in
  BallM.collide_paddle b p = b.
Proof. intros b p. apply (collide_paddle_miss b p). vm_compute. reflexivity. Defined.

(** C1. When the ball's rectangle intersects the paddle's: a ball moving
    left ends with its left edge on the paddle's right edge and a positive
    horizontal velocity; a ball moving right ends with its right edge on the
    paddle's left edge and a negative horizontal velocity; and in every case
    [|vel.x| <= 720] and [|vel.y| <= 520] afterwards. *)
Theorem collide_paddle_hit (b : Ball) (p : Paddle) :
  colliderect (ball_rect b) (paddle_rect p) = true ->
  let b' := BallM.collide_paddle b p in
  ((ball_vel_x b < 0)%Q ->
     left (ball_rect b') = right (paddle_rect p) /\ (0 < ball_vel_x b')%Q) /\
  ((0 < ball_vel_x b)%Q ->
     right (ball_rect b') = left (paddle_rect p) /\ (ball_vel_x b' < 0)%Q) /\
  (Qabs (ball_vel_x b') <= 720)%Q /\
  (Qabs (ball_vel_y b') <= 520)%Q.
Proof.
  intros Hc b'. subst b'.
  rewrite (collide_vel_x _ _ Hc), (collide_rect _ _ Hc).
  repeat split.
  - apply ltb_true in H. rewrite H. reflexivity.
  - apply clamp_pos; lra.
  - assert (E : Py.ltb (ball_vel_x b) 0 = false) by (apply ltb_false; lra).
    rewrite E. unfold right, left, set_right, set_x. simpl. lia.
  - apply clamp_neg; lra.
  - apply Qabs_Qle_condition. apply clamp_bounds. lra.
  - apply Qabs_Qle_condition. apply collide_vel_y_bounds, Hc.
Qed.

Lemma collide_paddle_hit_witness :
  let b := mkBall (mkRect 30 294 12 12) 420%Q (-420)%Q 100%Q in
  let p := PaddleM.init 24 250 520%Q in
  left (ball_rect (BallM.collide_paddle b p)) = 36 /\
  (0 < ball_vel_x (BallM.collide_paddle b p))%Q /\
  (Qabs (ball_vel_y (BallM.collide_paddle b p)) <= 520)%Q.
Proof.
  intros b p.
  assert (Hc : colliderect (ball_rect b) (paddle_rect p) = true)
    by (vm_compute; reflexivity).
  destruct (collide_paddle_hit b p Hc) as [Hl [_ [_ Hy]]].
  assert (Hv : (ball_vel_x b < 0)%Q) by (vm_compute; reflexivity).
  destruct (Hl Hv) as [H1 H2].
  split; [exact H1 | split; [exact H2 | exact Hy]].
Defined.

(** C10. A ball with horizontal velocity 0 whose rectangle intersects the
    paddle's takes the moving-right branch: its right edge lands on the
    paddle's left edge, and its horizontal velocity is still 0 after the
    negation, the 1.04 speed-up and the clamp. *)
Theorem collide_paddle_zero_vel (b : Ball) (p : Paddle) :
  (ball_vel_x b == 0)%Q ->
  colliderect (ball_rect b) (paddle_rect p) = true ->
  ball_rect (BallM.collide_paddle b p)
    = set_right (ball_rect b) (left (paddle_rect p)) /\
  right (ball_rect (BallM.collide_paddle b p)) = left (paddle_rect p) /\
  (ball_vel_x (BallM.collide_paddle b p) == 0)%Q.
Proof.
  intros Hz Hc.
  rewrite (collide_vel_x _ _ Hc), (collide_rect _ _ Hc).
  assert (E : Py.ltb (ball_vel_x b) 0 = false) by (apply ltb_false; lra).
  rewrite E. split; [reflexivity | split].
  - unfold right, left, set_right, set_x. simpl. lia.
  - rewrite clamp_inside by lra. lra.
Qed.

Lemma collide_paddle_zero_vel_witness :
  let b := mkBall (mkRect 30 294 12 12) 420%Q 0%Q 100%Q in
  let p := PaddleM.init 24 250 520%Q in
  right (ball_rect (BallM.collide_paddle b p)) = 24 /\
  (ball_vel_x (BallM.collide_paddle b p) == 0)%Q.
Proof.
  intros b p.
  assert (Hz : (ball_vel_x b == 0)%Q) by (vm_compute; reflexivity).
  assert (Hc : colliderect (ball_rect b) (paddle_rect p) = true)
    by (vm_compute; reflexivity).
  destruct (collide_paddle_zero_vel b p Hz Hc) as [_ [H1 H2]].
  split; [exact H1 | exact H2].
Defined.

(** ** Ball: update *)

Section UpdateFacts.

Local Open Scope Q_scope.

Lemma sized_update (b : Ball) (dt : Q) :
  BallM.sized b -> BallM.sized (BallM.update b dt).
Proof.
  intros [Hw Hh]. unfold BallM.update, BallM.bounce_walls.
  destruct (_ <=? _)%Z; [split; assumption |].
  destruct (_ >=? _)%Z; split; assumption.
Qed.

Lemma base_speed_update (b : Ball) (dt : Q) :
  ball_base_speed (BallM.update b dt) = ball_base_speed b.
Proof.
  unfold BallM.update, BallM.bounce_walls.
  destruct (_ <=? _)%Z; [reflexivity |].
  destruct (_ >=? _)%Z; reflexivity.
Qed.

(** The wall check negates the vertical velocity exactly when, after the
    advance, the ball touches or crosses the top or the bottom wall. *)
Lemma update_vel_y (b : Ball) (dt : Q) :
  ball_vel_y (BallM.update b dt)
  = if ((top (ball_rect (BallM.advance b dt)) <=? 0)%Z
        || (bottom (ball_rect (BallM.advance b dt)) >=? HEIGHT)%Z)%bool
    then - ball_vel_y b else ball_vel_y b.
Proof.
  unfold BallM.update, BallM.bounce_walls.
  destruct (_ <=? _)%Z; [reflexivity |].
  destruct (_ >=? _)%Z; reflexivity.
Qed.

(** [update] never touches the horizontal velocity. *)
Lemma update_vel_x (b : Ball) (dt : Q) :
  ball_vel_x (BallM.update b dt) = ball_vel_x b.
Proof.
  unfold BallM.update, BallM.bounce_walls.
  destruct (_ <=? _)%Z; [reflexivity |].
  destruct (_ >=? _)%Z; reflexivity.
Qed.

(** The horizontal coordinate after [update] is the advanced one. *)
Lemma update_rect_x (b : Ball) (dt : Q) :
  rect_x (ball_rect (BallM.update b dt))
  = (rect_x (ball_rect b) + Py.int (ball_vel_x b * dt))%Z.
Proof.
  unfold BallM.update, BallM.bounce_walls.
  destruct (_ <=? _)%Z; [reflexivity |].
  destruct (_ >=? _)%Z; reflexivity.
Qed.

(** After [update] a ball of the constructor's size is inside the play
    area vertically. *)
Lemma update_in_bounds (b : Ball) (dt : Q) :
  BallM.sized b -> BallM.in_bounds (BallM.update b dt).
Proof.
  intros [Hw Hh]. unfold BallM.in_bounds, BallM.update, BallM.bounce_walls.
  unfold BALL_SIZE in Hh.
  destruct (_ <=? _)%Z eqn:E1.
  - rect_simpl. unfold HEIGHT. lia.
  - destruct (_ >=? _)%Z eqn:E2.
    + rect_simpl. unfold HEIGHT. lia.
    + apply Z.leb_gt in E1. rewrite Z.geb_leb in E2. apply Z.leb_gt in E2.
      split; lia.
Qed.

End UpdateFacts.

(** C2: the defect of the wall check.  The claim is that a ball with
    [top <= 0] leaves [update] with a non-negative vertical velocity (and
    one with [bottom >= HEIGHT] with a non-positive one).  The code negates
    the velocity whenever the ball is at the wall, also when it is already
    moving away: a ball resting on the top wall and moving down at 32 px/s
    does not advance in 1/64 s, is still at the wall at the check, and
    leaves [update] with vertical velocity -32, back into the wall;
    symmetrically at the bottom wall. *)
Lemma update_wall_sign_counterexample :
  (0 < 1 # 64)%Q /\
  (top (ball_rect ball_leaving_top) <= 0 /\
   ~ (0 <= ball_vel_y (BallM.update ball_leaving_top (1 # 64)))%Q) /\
  (bottom (ball_rect ball_leaving_bottom) >= HEIGHT /\
   ~ (ball_vel_y (BallM.update ball_leaving_bottom (1 # 64)) <= 0)%Q).
Proof.
  split; [reflexivity |].
  split; (split; [vm_compute; discriminate |]);
    vm_compute; intro H; apply H; reflexivity.
Qed.

(** Where the wall check does turn the ball away: for a ball with
    [top <= 0] whose vertical velocity is not positive (it moves up or not at all), and any [dt >= 0], the vertical
    velocity after [update] is the old one negated, hence non-negative;
    symmetrically, for a ball with [bottom >= HEIGHT] whose vertical
    velocity is not negative, it is the old one negated, hence
    non-positive. *)
Theorem update_wall_bounce (b : Ball) (dt : Q) :
  (0 <= dt)%Q ->
  (top (ball_rect b) <= 0 -> (ball_vel_y b <= 0)%Q ->
     ball_vel_y (BallM.update b dt) = (- ball_vel_y b)%Q /\
     (0 <= ball_vel_y (BallM.update b dt))%Q) /\
  (bottom (ball_rect b) >= HEIGHT -> (0 <= ball_vel_y b)%Q ->
     ball_vel_y (BallM.update b dt) = (- ball_vel_y b)%Q /\
     (ball_vel_y (BallM.update b dt) <= 0)%Q).
Proof.
  intro Hdt. split.
  - intros Ht Hv.
    assert (Hi : Py.int (ball_vel_y b * dt) <= 0).
    { apply int_nonpos, mul_nonpos_nonneg; assumption. }
    rewrite update_vel_y.
    replace (top (ball_rect (BallM.advance b dt)) <=? 0) with true.
    + cbn [orb]. split; [reflexivity | lra].
    + symmetry. apply Z.leb_le. unfold top in *. simpl. lia.
  - intros Hb Hv.
    assert (Hi : 0 <= Py.int (ball_vel_y b * dt)).
    { apply int_nonneg, mul_nonneg_nonneg; assumption. }
    rewrite update_vel_y.
    replace (bottom (ball_rect (BallM.advance b dt)) >=? HEIGHT) with true.
    + rewrite orb_true_r. split; [reflexivity | lra].
    + symmetry. rewrite Z.geb_leb. apply Z.leb_le. unfold bottom in *.
      simpl. lia.
Qed.

Lemma update_wall_bounce_witness :
  let b := mkBall (mkRect 394 0 12 12) 420%Q 420%Q (-128)%Q in
  (0 <= ball_vel_y (BallM.update b (1 # 64)))%Q.
Proof.
  intro b.
  assert (Hdt : (0 <= 1 # 64)%Q) by (vm_compute; discriminate).
  destruct (update_wall_bounce b (1 # 64) Hdt) as [Ht _].
  assert (H0 : top (ball_rect b) <= 0) by (vm_compute; discriminate).
  assert (Hv : (ball_vel_y b <= 0)%Q) by (vm_compute; discriminate).
  exact (proj2 (Ht H0 Hv)).
Defined.

(** ** Truncated displacements *)

Section TruncationFacts.

Local Open Scope Q_scope.

(** A displacement of less than a pixel, in either direction, in the three
    forms the paddle code builds it. *)
Lemma small_dy_towards (s dt : Q) (up : bool) :
  Qabs (s * dt) < 1 ->
  Py.int ((if up then 1 else -1) * s * dt) = 0%Z.
Proof.
  intro H. apply int_small. apply Qabs_Qlt_condition in H.
  apply Qabs_Qlt_condition. destruct up; lra.
Qed.

Lemma small_dy_input (s dt : Q) (up down : bool) :
  Qabs (s * dt) < 1 ->
  Py.int (if (up && negb down)%bool then - s * dt
          else if (down && negb up)%bool then s * dt else 0) = 0%Z.
Proof.
  intro H. apply int_small. apply Qabs_Qlt_condition in H.
  apply Qabs_Qlt_condition.
  destruct (up && negb down)%bool; [lra |].
  destruct (down && negb up)%bool; lra.
Qed.

End TruncationFacts.

(** C9, as stated, fails.  A paddle that starts above the screen is pulled
    to [top = 0] by the clamp although its displacement truncates to 0; a
    paddle inside the screen moves when [speed * dt] is below 1 because it
    is negative with magnitude 520; a ball above the screen is snapped to
    [top = 0] by the wall check although its vertical displacement is 0. *)
Lemma truncation_counterexample :
  ((1 < Qabs (300 - Py.float (centery (paddle_rect paddle_above_screen))))%Q /\
   (paddle_speed paddle_above_screen * (1 # 1000) < 1)%Q /\
   PaddleM.move_towards paddle_above_screen 300%Q (1 # 1000)
     <> paddle_above_screen) /\
  ((1 < Qabs (0 - Py.float (centery (paddle_rect paddle_at_start))))%Q /\
   (paddle_speed paddle_at_start * (-1) < 1)%Q /\
   PaddleM.move_towards paddle_at_start 0%Q (-1)%Q <> paddle_at_start) /\
  ((Qabs (ball_vel_y ball_above_screen * (1 # 64)) < 1)%Q /\
   rect_y (ball_rect (BallM.update ball_above_screen (1 # 64)))
     <> rect_y (ball_rect ball_above_screen)).
Proof.
  repeat split; try (vm_compute; reflexivity); vm_compute; discriminate.
Qed.

(** C9, amended. Every per-frame position update adds the displacement
    truncated toward zero; so, for every [dt]: a paddle inside the play area
    is left as it was by [move_towards] (any target) and by [move_input]
    (any keys) whenever [|speed * dt| < 1]; [Ball.update] leaves the
    ball's x unchanged whenever [|vel.x * dt| < 1], and leaves its y
    unchanged whenever [|vel.y * dt| < 1] and the ball is inside the play
    area. *)
Theorem truncated_moves (dt : Q) :
  (forall (p : Paddle) (target_y : Q),
      PaddleM.in_bounds p -> (Qabs (paddle_speed p * dt) < 1)%Q ->
      PaddleM.move_towards p target_y dt = p) /\
  (forall (p : Paddle) (up down : bool),
      PaddleM.in_bounds p -> (Qabs (paddle_speed p * dt) < 1)%Q ->
      PaddleM.move_input p up down dt = p) /\
  (forall b : Ball,
      (Qabs (ball_vel_x b * dt) < 1)%Q ->
      rect_x (ball_rect (BallM.update b dt)) = rect_x (ball_rect b)) /\
  (forall b : Ball,
      BallM.in_bounds b -> (Qabs (ball_vel_y b * dt) < 1)%Q ->
      rect_y (ball_rect (BallM.update b dt)) = rect_y (ball_rect b)).
Proof.
  repeat split.
  - intros p target_y Hin Hs. unfold PaddleM.move_towards.
    destruct (Py.leb _ _); [reflexivity |].
    rewrite (small_dy_towards _ _ _ Hs), shift_y_0. apply clamp_id, Hin.
  - intros p up down Hin Hs. unfold PaddleM.move_input.
    rewrite (small_dy_input _ _ _ _ Hs), shift_y_0. apply clamp_id, Hin.
  - intros b Hs. rewrite update_rect_x, (int_small _ Hs). lia.
  - intros b [H0 H1] Hs. unfold BallM.update, BallM.bounce_walls.
    destruct (_ <=? _) eqn:E1.
    + apply Z.leb_le in E1. rect_simpl. rewrite (int_small _ Hs) in E1. lia.
    + destruct (_ >=? _) eqn:E2.
      * rewrite Z.geb_leb in E2. apply Z.leb_le in E2. rect_simpl.
        rewrite (int_small _ Hs) in E2. lia.
      * rect_simpl. rewrite (int_small _ Hs). lia.
Qed.

Lemma truncated_moves_witness :
  PaddleM.move_towards paddle_at_start 0%Q (1 # 1000) = paddle_at_start /\
  PaddleM.move_input paddle_at_start true false (1 # 1000) = paddle_at_start.
Proof.
  destruct (truncated_moves (1 # 1000)) as [H1 [H2 _]].
  assert (Hin : PaddleM.in_bounds paddle_at_start)
    by (split; vm_compute; discriminate).
  assert (Hs : (Qabs (paddle_speed paddle_at_start * (1 # 1000)) < 1)%Q)
    by (vm_compute; reflexivity).
  split; [apply (H1 _ _ Hin Hs) | apply (H2 _ _ _ Hin Hs)].
Defined.

(** ** Ball: reset *)

Section ResetFacts.

(** Assigning the centre and reading it back. *)
Lemma center_set_center (r : Rect) (c : Z * Z) : center (set_center r c) = c.
Proof.
  destruct c as [cx cy]. unfold center, centerx, centery, set_center.
  simpl. f_equal; lia.
Qed.

Lemma reset_center (b : Ball) (direction : Z) (angle : Q) :
  center (ball_rect (BallM.reset b direction angle)) = (WIDTH / 2, HEIGHT / 2).
Proof. unfold BallM.reset. cbn [ball_rect]. apply center_set_center. Qed.

Lemma sized_reset (b : Ball) (direction : Z) (angle : Q) :
  BallM.sized b -> BallM.sized (BallM.reset b direction angle).
Proof. intros [Hw Hh]. split; assumption. Qed.

(** The constructor's ball has the constructor's size and sits at the
    centre of the screen. *)
Lemma sized_ball_init (x y : Z) (speed : Q) (direction : Z) (angle : Q) :
  BallM.sized (BallM.init x y speed direction angle).
Proof. split; reflexivity. Qed.

End ResetFacts.

(** C7. After [reset(direction=1)], whatever angle factor in [-0.35, 0.35]
    was drawn: the horizontal velocity equals the base speed, so that for a
    positive base speed it is positive with that magnitude; the ball's
    centre is the screen centre (400, 300); and the vertical velocity is
    the base speed times the drawn factor. *)
Theorem reset_serves_right (b : Ball) (angle : Q) :
  BallM.angle_drawn angle ->
  let b' := BallM.reset b 1 angle in
  (ball_vel_x b' == ball_base_speed b)%Q /\
  ((0 < ball_base_speed b)%Q ->
     (0 < ball_vel_x b')%Q /\ (Qabs (ball_vel_x b') == ball_base_speed b)%Q) /\
  center (ball_rect b') = (400, 300) /\
  ball_vel_y b' = (ball_base_speed b * angle)%Q /\
  (exists k : Q, (- (35 # 100) <= k <= 35 # 100)%Q /\
                 (ball_vel_y b' == ball_base_speed b * k)%Q).
Proof.
  intros Ha b'. subst b'.
  assert (Hx : (ball_vel_x (BallM.reset b 1 angle) == ball_base_speed b)%Q).
  { unfold BallM.reset, Py.float. cbn [ball_vel_x]. ring. }
  split; [exact Hx |].
  split.
  { intro Hs. split; [rewrite Hx; exact Hs |].
    rewrite Hx. apply Qabs_pos. lra. }
  split; [apply reset_center |].
  split; [reflexivity |].
  exists angle. split; [exact Ha | reflexivity].
Qed.

Lemma reset_serves_right_witness :
  let b := mkBall (mkRect (-20) 300 12 12) 420%Q (-500)%Q 100%Q in
  let b' := BallM.reset b 1 (1 # 5) in
  (ball_vel_x b' == 420)%Q /\ (0 < ball_vel_x b')%Q /\
  center (ball_rect b') = (400, 300) /\
  ball_vel_y b' = (420 * (1 # 5))%Q.
Proof.
  intros b b'.
  assert (Ha : BallM.angle_drawn (1 # 5))
    by (split; vm_compute; discriminate).
  destruct (reset_serves_right b (1 # 5) Ha) as [H1 [Hp [H2 [H3 _]]]].
  assert (Hs : (0 < ball_base_speed b)%Q) by (vm_compute; reflexivity).
  split; [exact H1 | split; [exact (proj1 (Hp Hs)) | split; [exact H2 | exact H3]]].
Defined.

(** ** Game: scoring *)

Section ScoringFacts.

(** The AI step changes neither the ball nor the score. *)
Lemma update_ai_ball (g : Game) (dt : Q) (f : Frame) :
  ball (GameM._update_ai g dt f) = ball g.
Proof.
  unfold GameM._update_ai. destruct (_ >=? _); reflexivity.
Qed.

Lemma update_ai_score (g : Game) (dt : Q) (f : Frame) :
  score (GameM._update_ai g dt f) = score g.
Proof.
  unfold GameM._update_ai. destruct (_ >=? _); reflexivity.
Qed.

(** The steps before the scoring check change neither the score nor the
    ball's base speed, and keep the ball's size. *)
Lemma before_scoring_score (g : Game) (dt : Q) (f : Frame) :
  score (GameM.before_scoring g dt f) = score g.
Proof. reflexivity. Qed.

Lemma base_speed_collide (b : Ball) (p : Paddle) :
  ball_base_speed (BallM.collide_paddle b p) = ball_base_speed b.
Proof. unfold BallM.collide_paddle. destruct (negb _); reflexivity. Qed.





(** Between the two exits nothing is scored. *)
Lemma scoring_in_play (g : Game) (f : Frame) :
  0 <= right (ball_rect (ball g)) -> left (ball_rect (ball g)) <= WIDTH ->
  GameM.scoring g f = g.
Proof.
  intros H1 H2. unfold GameM.scoring.
  replace (right (ball_rect (ball g)) <? 0) with false
    by (symmetry; apply Z.ltb_ge; assumption).
  replace (left (ball_rect (ball g)) >? WIDTH) with false
    by (symmetry; rewrite Z.gtb_ltb; apply Z.ltb_ge; assumption).
  reflexivity.
Qed.

End ScoringFacts.



(** ** Game: prediction *)

Section PredictFacts.

Local Open Scope Q_scope.

(** [a % b] for a positive [b] lies in [0, b) and differs from [a] by a
    whole number of periods. *)
Lemma fmod_range (a b : Q) : 0 < b -> 0 <= Py.fmod a b < b.
Proof.
  intro Hb. unfold Py.fmod.
  pose proof (Qfloor_le (a / b)) as Hlo.
  pose proof (Qlt_floor (a / b)) as Hhi.
  rewrite inject_Z_plus in Hhi.
  set (n := inject_Z (Qfloor (a / b))) in *.
  assert (Ha : a == b * (a / b)) by (field; lra).
  apply (proj2 (Qmult_le_l _ _ b Hb)) in Hlo.
  apply (proj2 (Qmult_lt_l _ _ b Hb)) in Hhi.
  rewrite <- Ha in Hlo, Hhi.
  change (inject_Z 1) with 1 in Hhi. lra.
Qed.

Lemma fmod_periods (a b : Q) :
  exists n : Z, a == Py.fmod a b + b * inject_Z n.
Proof. exists (Qfloor (a / b)). unfold Py.fmod. ring. Qed.

(** Inside one period [%] changes nothing. *)
Lemma fmod_small (a b : Q) : 0 <= a -> a < b -> Py.fmod a b == a.
Proof.
  intros H0 H1. unfold Py.fmod.
  assert (Hb : 0 < b) by lra.
  assert (Hf : Qfloor (a / b) = 0%Z).
  { pose proof (Qfloor_le (a / b)) as Hlo.
    pose proof (Qlt_floor (a / b)) as Hhi.
    assert (Hq0 : 0 <= a / b) by (apply Qle_shift_div_l; lra).
    assert (Hq1 : a / b < 1) by (apply Qlt_shift_div_r; lra).
    assert (Hz1 : (Qfloor (a / b) < 1)%Z).
    { rewrite Zlt_Qlt. change (inject_Z 1) with 1. lra. }
    assert (Hz0 : (0 < Qfloor (a / b) + 1)%Z).
    { rewrite Zlt_Qlt. change (inject_Z 0) with 0. lra. }
    lia. }
  rewrite Hf. change (inject_Z 0) with 0. ring.
Qed.

Lemma fmod_wd (a a' b : Q) : a == a' -> Py.fmod a b == Py.fmod a' b.
Proof.
  intro H. unfold Py.fmod.
  assert (Hf : Qfloor (a / b) = Qfloor (a' / b)).
  { apply Qfloor_comp. rewrite H. reflexivity. }
  rewrite Hf, H. reflexivity.
Qed.

(** The fold lands in [0, HEIGHT]. *)
Lemma reflect_range (s : Q) : 0 <= GameM.reflect s <= Py.float HEIGHT.
Proof.
  unfold GameM.reflect, Py.float.
  assert (Hp : 0 < inject_Z (2 * HEIGHT)) by reflexivity.
  pose proof (fmod_range s _ Hp) as [H0 H1].
  change (inject_Z (2 * HEIGHT)) with 1200 in *.
  change (inject_Z HEIGHT) with 600.
  destruct (Py.leb _ _) eqn:E.
  - apply leb_true in E. lra.
  - apply leb_false in E. lra.
Qed.

(** The fold mirrors a value just below the bottom wall back inside. *)
Lemma reflect_beyond_bottom (s k : Q) :
  0 < k -> k < Py.float HEIGHT -> s == Py.float HEIGHT + k ->
  GameM.reflect s == Py.float HEIGHT - k.
Proof.
  unfold GameM.reflect, Py.float.
  change (inject_Z (2 * HEIGHT)) with 1200.
  change (inject_Z HEIGHT) with 600.
  intros Hk0 Hk1 Hs.
  assert (Hm : Py.fmod s 1200 == 600 + k).
  { rewrite (fmod_wd _ _ _ Hs). apply fmod_small; lra. }
  destruct (Py.leb _ _) eqn:E.
  - apply leb_true in E. lra.
  - lra.
Qed.

(** When the ball has a horizontal velocity and the target lies ahead, the
    prediction is the fold of the simulated y. *)
Lemma predict_ahead (g : Game) (x : Z) :
  ~ ball_vel_x (ball g) == 0 -> 0 < GameM.time_to_x g x ->
  GameM._predict_ball_y_at_x g x = GameM.reflect (GameM.simulated_y g x).
Proof.
  intros Hv Ht. unfold GameM._predict_ball_y_at_x.
  destruct (Py.eqb _ _) eqn:E1; [apply eqb_true in E1; contradiction |].
  destruct (Py.leb _ _) eqn:E2; [apply leb_true in E2; lra | reflexivity].
Qed.

(** When the target lies behind, or at, the ball, the prediction is the
    current y. *)
Lemma predict_behind (g : Game) (x : Z) :
  GameM.time_to_x g x <= 0 ->
  GameM._predict_ball_y_at_x g x
  = Py.float (centery (ball_rect (ball g))).
Proof.
  intro Ht. unfold GameM._predict_ball_y_at_x.
  destruct (Py.eqb _ _); [reflexivity |].
  apply leb_true in Ht. rewrite Ht. reflexivity.
Qed.

End PredictFacts.

(** C5. For a ball with a horizontal velocity and a target x ahead of it,
    the prediction is the triangular-wave fold of the simulated y with
    period [2 * HEIGHT]: with [m = simulated_y % period], which lies in
    [0, period), it is [m] if [m <= HEIGHT] and [period - m] otherwise; in
    particular a simulated y of [HEIGHT + k] with [0 < k < HEIGHT] is
    predicted as [HEIGHT - k]. *)
Theorem predict_folds (g : Game) (x : Z) :
  ~ (ball_vel_x (ball g) == 0)%Q -> (0 < GameM.time_to_x g x)%Q ->
  let period := Py.float (2 * HEIGHT) in
  let m := Py.fmod (GameM.simulated_y g x) period in
  (0 <= m < period)%Q /\
  ((m <= Py.float HEIGHT)%Q -> GameM._predict_ball_y_at_x g x = m) /\
  ((Py.float HEIGHT < m)%Q ->
     GameM._predict_ball_y_at_x g x = (period - m)%Q) /\
  (forall k : Q,
      (0 < k)%Q -> (k < Py.float HEIGHT)%Q ->
      (GameM.simulated_y g x == Py.float HEIGHT + k)%Q ->
      (GameM._predict_ball_y_at_x g x == Py.float HEIGHT - k)%Q).
Proof.
  intros Hv Ht period m. rewrite (predict_ahead g x Hv Ht).
  split; [apply fmod_range; reflexivity |].
  split; [| split].
  - intro H. unfold GameM.reflect. fold period. fold m.
    apply leb_true in H. rewrite H. reflexivity.
  - intro H. unfold GameM.reflect. fold period. fold m.
    apply leb_false in H. rewrite H. reflexivity.
  - intros k Hk0 Hk1 Hs. apply reflect_beyond_bottom; assumption.
Qed.

(** On the arithmetic level, for a ball whose horizontal velocity is 0,
    whatever its vertical velocity and whatever the target x, the value of
    the prediction is the y of the ball's centre. *)
Theorem predict_zero_vel (g : Game) (x : Z) :
  (ball_vel_x (ball g) == 0)%Q ->
  GameM._predict_ball_y_at_x g x = Py.float (centery (ball_rect (ball g))).
Proof.
  intro Hz. unfold GameM._predict_ball_y_at_x.
  apply eqb_true in Hz. rewrite Hz. reflexivity.
Qed.

Lemma predict_folds_witness :
  (GameM._predict_ball_y_at_x (game_with_vel 370 400) 770 == 600 - 100)%Q.
Proof.
  assert (Hv : ~ (ball_vel_x (ball (game_with_vel 370 400)) == 0)%Q)
    by (vm_compute; discriminate).
  assert (Ht : (0 < GameM.time_to_x (game_with_vel 370 400) 770)%Q)
    by (vm_compute; reflexivity).
  destruct (predict_folds (game_with_vel 370 400) 770 Hv Ht)
    as [_ [_ [_ Hk]]].
  apply (Hk 100%Q); vm_compute; reflexivity.
Defined.

Lemma predict_zero_vel_witness :
  GameM._predict_ball_y_at_x (game_with_vel 0 250) 770 = 300%Q.
Proof.
  apply (predict_zero_vel (game_with_vel 0 250) 770).
  vm_compute. reflexivity.
Defined.

(** ** The invariant along a run *)

Section Invariant.

Lemma in_bounds_collide (b : Ball) (p : Paddle) :
  BallM.in_bounds b -> BallM.in_bounds (BallM.collide_paddle b p).
Proof.
  intro H. unfold BallM.collide_paddle.
  destruct (negb _); [assumption |].
  destruct (Py.ltb _ _); exact H.
Qed.

Lemma in_bounds_reset (b : Ball) (direction : Z) (angle : Q) :
  BallM.sized b -> BallM.in_bounds (BallM.reset b direction angle).
Proof.
  intros [_ Hh]. unfold BallM.in_bounds, BallM.reset, top, bottom, set_center.
  cbn [ball_rect rect_y rect_h snd]. rewrite Hh. split; vm_compute; discriminate.
Qed.

Lemma inv_init (ball_dir : Z) (angle : Q) (serve : Z) :
  game_inv (GameM.init ball_dir angle serve).
Proof.
  repeat split; vm_compute; discriminate.
Qed.

Lemma inv_scoring (g : Game) (f : Frame) :
  game_inv g -> game_inv (GameM.scoring g f).
Proof.
  intros [Hp [Ha [Hbs Hbi]]]. unfold GameM.scoring.
  destruct (_ <? _).
  - repeat split; try apply Hp; try apply Ha; try apply Hbs;
      apply in_bounds_reset, Hbs.
  - destruct (_ >? _).
    + repeat split; try apply Hp; try apply Ha; try apply Hbs;
        apply in_bounds_reset, Hbs.
    + repeat split; try apply Hp; try apply Ha; try apply Hbs; apply Hbi.
Qed.

Lemma inv_update_ai (g : Game) (dt : Q) (f : Frame) :
  game_inv g -> game_inv (GameM._update_ai g dt f).
Proof.
  intros [Hp [[Has Hai] Hb]]. unfold GameM._update_ai.
  destruct (_ >=? _); (split; [exact Hp | split; [| exact Hb]]);
    cbn [ai]; (split; [apply sized_move_towards, Has
                      | apply move_towards_keeps_bounds; assumption]).
Qed.

Lemma inv_before_scoring (g : Game) (dt : Q) (f : Frame) :
  game_inv g -> game_inv (GameM.before_scoring g dt f).
Proof.
  intros [[Hps Hpi] [Ha [Hbs Hbi]]]. unfold GameM.before_scoring.
  split; [| split; [exact Ha |]]; cbn [player ball].
  - split; [apply sized_move_input, Hps |].
    unfold PaddleM.move_input. apply clamp_in_bounds.
    cbn [PaddleM.shift_y paddle_rect set_y rect_h].
    destruct Hps as [_ Hh]. rewrite Hh. vm_compute. discriminate.
  - split.
    + auto using sized_collide, sized_update.
    + auto using in_bounds_collide, update_in_bounds.
Qed.

Lemma inv_update (g : Game) (dt : Q) (f : Frame) :
  game_inv g -> game_inv (GameM._update g dt f).
Proof.
  intro H. unfold GameM._update.
  auto using inv_update_ai, inv_scoring, inv_before_scoring.
Qed.

(** Every state a run reaches from a new game satisfies the invariant. *)
Lemma inv_run (frames : list Frame) (g : Game) :
  game_inv g -> game_inv (GameM.run g frames).
Proof.
  revert g. induction frames as [| f rest IH]; intros g H; simpl.
  - exact H.
  - destruct (quit f); [exact H |]. apply IH, inv_update, H.
Qed.

End Invariant.

(** ** The program on concrete inputs *)

Section Examples.

(** [Game.__init__]: paddles at x = 24 and x = 764, y = 250; ball centred. *)
Example init_layout :
  let g := GameM.init 1 (1 # 10) (-1) in
  paddle_rect (player g) = mkRect 24 250 12 100 /\
  paddle_rect (ai g) = mkRect 764 250 12 100 /\
  ball_rect (ball g) = mkRect 394 294 12 12 /\
  (ball_vel_x (ball g) == 420)%Q /\ (ball_vel_y (ball g) == 42)%Q.
Proof. repeat split. Qed.

(** A ball at the centre moving right at (448, 0) advances 7 pixels in
    1/64 s and keeps its velocity. *)
Example one_frame_free_flight :
  let b := BallM.update (ball (game_with_vel 448 0)) (1 # 64) in
  ball_rect b = mkRect 401 294 12 12 /\
  (ball_vel_x b == 448)%Q /\ (ball_vel_y b == 0)%Q.
Proof. repeat split. Qed.

(** [int] truncates toward zero on both sides. *)
Example int_truncates :
  Py.int (7 # 2) = 3 /\ Py.int (- (7 # 2)) = -3 /\ Py.int (- (1 # 2)) = 0.
Proof. repeat split. Qed.

(** [%] takes the sign of the divisor. *)
Example fmod_negative : (Py.fmod (-100) 1200 == 1100)%Q.
Proof. reflexivity. Qed.

(** A ball that would pass the top wall is predicted mirrored: from
    y = 300 with velocity (370, -400), one second away from x = 770, the
    simulated y is -100 and the prediction 100. *)
Example predict_above_top :
  (GameM._predict_ball_y_at_x (game_with_vel 370 (-400)) 770 == 100)%Q.
Proof. reflexivity. Qed.

(** A player hit near the paddle's lower end: the ball is put flush on the
    paddle, turned, sped up by 1.04 and given spin. *)
Example player_hit :
  let b := mkBall (mkRect 30 330 12 12) 420%Q (-400)%Q 0%Q in
  let b' := BallM.collide_paddle b (PaddleM.init 24 250 520%Q) in
  ball_rect b' = mkRect 36 330 12 12 /\
  (ball_vel_x b' == 416)%Q /\ (ball_vel_y b' == 792 # 5)%Q.
Proof. repeat split. Qed.

(** Two frames of [run]; the second carries a quit event and is not
    played. *)
Example run_stops_on_quit :
  let f1 := mkFrame 16 false false true (1 # 10) 0%Q in
  let f2 := mkFrame 16 true true false (1 # 10) 0%Q in
  let g := GameM.run (game_with_vel 500 0) (f1 :: f2 :: nil) in
  rect_y (paddle_rect (player g)) = 258 /\
  rect_x (ball_rect (ball g)) = 402 /\ ai_timer g = 16.
Proof. repeat split. Qed.

End Examples.

(** * Further properties of the code *)

(** ** More on [int] *)

Section IntFacts.

Local Open Scope Q_scope.








End IntFacts.

(** ** Paddle movement *)

Section PaddleMoves.


End PaddleMoves.

(** X1. [move_towards] does nothing at all when the target is within 1 of
    the paddle's centre, wherever the paddle is and whatever [dt]. *)
Theorem move_towards_near_target (p : Paddle) (target_y dt : Q) :
  (Qabs (target_y - Py.float (centery (paddle_rect p))) <= 1)%Q ->
  PaddleM.move_towards p target_y dt = p.
Proof.
  intro H. unfold PaddleM.move_towards.
  apply leb_true in H. rewrite H. reflexivity.
Qed.

Lemma move_towards_near_target_witness :
  PaddleM.move_towards paddle_above_screen (1 # 2) (1 # 60)
  = paddle_above_screen.
Proof.
  apply (move_towards_near_target paddle_above_screen (1 # 2) (1 # 60)).
  vm_compute. discriminate.
Defined.



(** X3. [move_input] with both keys or with neither moves nothing: the
    result is the clamp of the paddle, and the paddle itself when it was
    inside the play area. *)
Theorem move_input_idle (p : Paddle) (up down : bool) (dt : Q) :
  up = down ->
  PaddleM.move_input p up down dt = PaddleM._clamp p /\
  (PaddleM.in_bounds p -> PaddleM.move_input p up down dt = p).
Proof.
  intro E. subst down.
  assert (H : PaddleM.move_input p up up dt = PaddleM._clamp p).
  { unfold PaddleM.move_input. destruct up; simpl;
      change (Py.int 0) with 0; rewrite shift_y_0; reflexivity. }
  split; [exact H |].
  intro Hin. rewrite H. apply clamp_id, Hin.
Qed.

Lemma move_input_idle_witness :
  PaddleM.move_input paddle_at_start true true (1 # 60) = paddle_at_start.
Proof.
  destruct (move_input_idle paddle_at_start true true (1 # 60) eq_refl)
    as [_ H].
  apply H. split; vm_compute; discriminate.
Defined.



(** X5. [_clamp] is idempotent and moves a paddle only vertically: x, size
    and speed are kept, for every paddle whatever its size. *)
Theorem clamp_idempotent (p : Paddle) :
  PaddleM._clamp (PaddleM._clamp p) = PaddleM._clamp p /\
  rect_x (paddle_rect (PaddleM._clamp p)) = rect_x (paddle_rect p) /\
  rect_w (paddle_rect (PaddleM._clamp p)) = rect_w (paddle_rect p) /\
  rect_h (paddle_rect (PaddleM._clamp p)) = rect_h (paddle_rect p) /\
  paddle_speed (PaddleM._clamp p) = paddle_speed p.
Proof.
  destruct p as [[x y w h] s].
  split; [| repeat split].
  unfold PaddleM._clamp. rect_simpl. unfold HEIGHT.
  f_equal. f_equal. lia.
Qed.

(** ** Ball movement *)

(** On the arithmetic level, where no coordinate overflows: after
    [update] a ball of the constructor's size lies vertically
    inside the play area, whatever its position and velocity before and
    whatever [dt]; a ball that reached or passed the top wall sits exactly
    on it ([top = 0]), one that reached or passed the bottom wall sits
    exactly on that ([bottom = HEIGHT]). *)
Theorem update_lands_inside (b : Ball) (dt : Q) :
  BallM.sized b ->
  let a := BallM.advance b dt in
  let b' := BallM.update b dt in
  BallM.in_bounds b' /\
  (top (ball_rect a) <= 0 -> top (ball_rect b') = 0) /\
  (bottom (ball_rect a) >= HEIGHT -> bottom (ball_rect b') = HEIGHT).
Proof.
  intros Hs a b'. split; [apply update_in_bounds, Hs |].
  destruct Hs as [_ Hh]. subst a b'.
  unfold BallM.update, BallM.bounce_walls.
  destruct (_ <=? _) eqn:E1.
  - apply Z.leb_le in E1. split; [reflexivity |].
    rect_simpl. unfold HEIGHT, BALL_SIZE in *. lia.
  - apply Z.leb_gt in E1. split; [lia |].
    intro Hb. replace (_ >=? _) with true.
    + rect_simpl. lia.
    + symmetry. rewrite Z.geb_leb. apply Z.leb_le. lia.
Qed.

Lemma update_lands_inside_witness :
  let b := mkBall (mkRect 100 3 12 12) 420%Q 420%Q (-512)%Q in
  BallM.in_bounds (BallM.update b (1 # 64)) /\
  top (ball_rect (BallM.update b (1 # 64))) = 0.
Proof.
  intro b.
  assert (Hs : BallM.sized b) by (split; reflexivity).
  destruct (update_lands_inside b (1 # 64) Hs) as [H1 [H2 _]].
  split; [exact H1 | apply H2]. vm_compute. discriminate.
Defined.

(** Free flight on the arithmetic level, with exact products: when the
    advanced ball is strictly between the two walls, [update] is the
    advance alone: each coordinate grows by the
    truncated displacement and the velocity is untouched. *)
Theorem update_free_flight (b : Ball) (dt : Q) :
  0 < rect_y (ball_rect b) + Py.int (ball_vel_y b * dt) ->
  rect_y (ball_rect b) + Py.int (ball_vel_y b * dt) + rect_h (ball_rect b)
    < HEIGHT ->
  BallM.update b dt
  = mkBall (mkRect (rect_x (ball_rect b) + Py.int (ball_vel_x b * dt))
                   (rect_y (ball_rect b) + Py.int (ball_vel_y b * dt))
                   (rect_w (ball_rect b)) (rect_h (ball_rect b)))
           (ball_base_speed b) (ball_vel_x b) (ball_vel_y b).
Proof.
  intros H0 H1. unfold BallM.update, BallM.bounce_walls.
  replace (top (ball_rect (BallM.advance b dt)) <=? 0) with false
    by (symmetry; apply Z.leb_gt; rect_simpl; lia).
  replace (bottom (ball_rect (BallM.advance b dt)) >=? HEIGHT) with false
    by (symmetry; rewrite Z.geb_leb; apply Z.leb_gt; rect_simpl; lia).
  reflexivity.
Qed.

Lemma update_free_flight_witness :
  BallM.update (ball (game_with_vel 420 (-128))) (1 # 64)
  = mkBall (mkRect (394 + 6) (294 + -2) 12 12) 420%Q 420%Q (-128)%Q.
Proof.
  apply (update_free_flight (ball (game_with_vel 420 (-128))) (1 # 64));
    vm_compute; reflexivity.
Defined.

(** X8. [update] never changes the ball's speed: the horizontal velocity,
    the magnitude of the vertical velocity, the base speed and the size
    are what they were, for every ball and every [dt]. *)
Theorem update_keeps_speed (b : Ball) (dt : Q) :
  ball_vel_x (BallM.update b dt) = ball_vel_x b /\
  (Qabs (ball_vel_y (BallM.update b dt)) == Qabs (ball_vel_y b))%Q /\
  ball_base_speed (BallM.update b dt) = ball_base_speed b /\
  rect_w (ball_rect (BallM.update b dt)) = rect_w (ball_rect b) /\
  rect_h (ball_rect (BallM.update b dt)) = rect_h (ball_rect b).
Proof.
  split; [apply update_vel_x |].
  split.
  { rewrite update_vel_y. destruct (_ || _)%bool;
      [apply Qabs_opp | reflexivity]. }
  split; [apply base_speed_update |].
  unfold BallM.update, BallM.bounce_walls.
  destruct (_ <=? _); [split; reflexivity |].
  destruct (_ >=? _); split; reflexivity.
Qed.

(** ** Paddle collisions *)

Section CollideMore.

Local Open Scope Q_scope.

(** Rectangles whose horizontal extents do not overlap do not collide. *)
Lemma colliderect_apart (a c : Rect) :
  (0 <= rect_w a)%Z -> (0 <= rect_w c)%Z ->
  (rect_x a + rect_w a <= rect_x c \/ rect_x c + rect_w c <= rect_x a)%Z ->
  colliderect a c = false.
Proof.
  intros Ha Hc H. destruct (colliderect a c) eqn:E; [| reflexivity].
  apply colliderect_x in E. lia.
Qed.

(** The vertical velocity a hit leaves. *)
Lemma collide_vel_y (b : Ball) (p : Paddle) :
  colliderect (ball_rect b) (paddle_rect p) = true ->
  ball_vel_y (BallM.collide_paddle b p)
  = Py.max
      (Py.min (ball_vel_y b
               + Py.float (centery (ball_rect b) - centery (paddle_rect p))
                 / (Py.float PADDLE_HEIGHT / 2) * 220) 520) (-520).
Proof.
  intro Hc. unfold BallM.collide_paddle. rewrite Hc.
  destruct (Py.ltb _ _); reflexivity.
Qed.

(** The clamp, by cases. *)
Lemma clamp_cases (v lo hi : Q) :
  lo <= hi ->
  (v < lo /\ Py.max (Py.min v hi) lo = lo) \/
  (lo <= v <= hi /\ Py.max (Py.min v hi) lo = v) \/
  (hi < v /\ Py.max (Py.min v hi) lo = hi).
Proof.
  intro Hlh. unfold Py.max, Py.min.
  destruct (Py.ltb hi v) eqn:E1.
  - apply ltb_true in E1. right. right. split; [assumption |].
    assert (E2 : Py.ltb hi lo = false) by (apply ltb_false; assumption).
    rewrite E2. reflexivity.
  - apply ltb_false in E1. destruct (Py.ltb v lo) eqn:E2.
    + apply ltb_true in E2. left. split; [assumption | reflexivity].
    + apply ltb_false in E2. right. left. split; [split; assumption | reflexivity].
Qed.

End CollideMore.

(** X9. A second [collide_paddle] with the same paddle changes nothing:
    after a hit the ball no longer overlaps the paddle, so it cannot be
    turned round twice (ball and paddle of the constructors' sizes). *)
Theorem collide_paddle_once (b : Ball) (p : Paddle) :
  BallM.sized b -> PaddleM.sized p ->
  BallM.collide_paddle (BallM.collide_paddle b p) p = BallM.collide_paddle b p.
Proof.
  intros Hb Hp.
  destruct (colliderect (ball_rect b) (paddle_rect p)) eqn:Hc.
  - unfold BallM.collide_paddle at 1.
    rewrite (collide_paddle_separates b p Hb Hp Hc). reflexivity.
  - assert (E : BallM.collide_paddle b p = b).
    { unfold BallM.collide_paddle. rewrite Hc. reflexivity. }
    rewrite !E. reflexivity.
Qed.

Lemma collide_paddle_once_witness :
  let b := mkBall (mkRect 30 294 12 12) 420%Q (-420)%Q 100%Q in
  BallM.collide_paddle (BallM.collide_paddle b paddle_at_start) paddle_at_start
  = BallM.collide_paddle b paddle_at_start.
Proof.
  intro b. apply (collide_paddle_once b paddle_at_start); split; reflexivity.
Defined.

(** X10. [collide_paddle] moves the ball only horizontally: y, width,
    height and base speed are kept, hit or no hit. *)
Theorem collide_paddle_keeps_y (b : Ball) (p : Paddle) :
  rect_y (ball_rect (BallM.collide_paddle b p)) = rect_y (ball_rect b) /\
  rect_w (ball_rect (BallM.collide_paddle b p)) = rect_w (ball_rect b) /\
  rect_h (ball_rect (BallM.collide_paddle b p)) = rect_h (ball_rect b) /\
  ball_base_speed (BallM.collide_paddle b p) = ball_base_speed b.
Proof.
  unfold BallM.collide_paddle.
  destruct (negb _); [repeat split |].
  destruct (Py.ltb _ _); repeat split.
Qed.

(** X11. A hit multiplies the horizontal speed by 1.04 up to the cap: the
    new [|vel.x|] is [1.04 * |vel.x|] when that is at most 720, and 720
    otherwise. *)
Theorem collide_paddle_speedup (b : Ball) (p : Paddle) :
  colliderect (ball_rect b) (paddle_rect p) = true ->
  let v := Qabs (ball_vel_x b) in
  let v' := Qabs (ball_vel_x (BallM.collide_paddle b p)) in
  ((v * (104 # 100) <= 720)%Q -> (v' == v * (104 # 100))%Q) /\
  ((720 <= v * (104 # 100))%Q -> (v' == 720)%Q).
Proof.
  intros Hc v v'. subst v v'. rewrite (collide_vel_x _ _ Hc).
  set (x := ball_vel_x b).
  assert (Hlh : (-720 <= 720)%Q) by lra.
  destruct (clamp_cases (- x * (104 # 100)) (-720) 720 Hlh)
    as [[H E] | [[H E] | [H E]]]; rewrite E; clear E;
    (split; intro Hv; revert Hv; apply Qabs_case; intros Hx Hv).
  all: try (change (Qabs (-720)) with 720%Q).
  all: try (change (Qabs 720) with 720%Q).
  all: try lra.
  all: apply Qabs_case; intro; lra.
Qed.

Lemma collide_paddle_speedup_witness :
  let b := mkBall (mkRect 30 294 12 12) 420%Q (-700)%Q 100%Q in
  (Qabs (ball_vel_x (BallM.collide_paddle b paddle_at_start)) == 720)%Q.
Proof.
  intro b.
  assert (Hc : colliderect (ball_rect b) (paddle_rect paddle_at_start) = true)
    by (vm_compute; reflexivity).
  destruct (collide_paddle_speedup b paddle_at_start Hc) as [_ H].
  apply H. vm_compute. discriminate.
Defined.

Section CollideOrder.

Local Open Scope Q_scope.

(** Without an overlap the ball is returned as it is. *)
Lemma collide_no_overlap (b : Ball) (p : Paddle) :
  colliderect (ball_rect b) (paddle_rect p) = false ->
  BallM.collide_paddle b p = b.
Proof. intro Hc. unfold BallM.collide_paddle. rewrite Hc. reflexivity. Qed.

(** The spin of line 115-116 is 4.4 per pixel of offset. *)
Lemma spin_per_pixel (d : Z) :
  Py.float d / (Py.float PADDLE_HEIGHT / 2) * 220 == (22 # 5) * inject_Z d.
Proof.
  unfold Py.float. change (inject_Z PADDLE_HEIGHT) with 100. field.
Qed.

(** Where a hit leaves the ball horizontally. *)
Lemma collide_rect_x (b : Ball) (p : Paddle) :
  colliderect (ball_rect b) (paddle_rect p) = true ->
  rect_x (ball_rect (BallM.collide_paddle b p))
    = (rect_x (paddle_rect p) + rect_w (paddle_rect p))%Z \/
  rect_x (ball_rect (BallM.collide_paddle b p))
    = (rect_x (paddle_rect p) - rect_w (ball_rect b))%Z.
Proof.
  intro Hc. rewrite (collide_rect _ _ Hc).
  destruct (Py.ltb _ _); [left | right]; reflexivity.
Qed.

End CollideOrder.

(** X12. The spin of a hit: with [d] the ball's centre y minus the
    paddle's, the new vertical velocity is [vel.y + 4.4 * d] whenever that
    lies within [-520, 520]; a hit on the lower half ([d >= 0]) never
    lowers a vertical velocity that is at most 520, a hit on the upper half
    never raises one that is at least -520. *)
Theorem collide_paddle_spin (b : Ball) (p : Paddle) :
  colliderect (ball_rect b) (paddle_rect p) = true ->
  let d := centery (ball_rect b) - centery (paddle_rect p) in
  let vy := ball_vel_y b in
  let vy' := ball_vel_y (BallM.collide_paddle b p) in
  ((-520 <= vy + (22 # 5) * inject_Z d <= 520)%Q ->
     (vy' == vy + (22 # 5) * inject_Z d)%Q) /\
  (0 <= d -> (vy <= 520)%Q -> (vy <= vy')%Q) /\
  (d <= 0 -> (-520 <= vy)%Q -> (vy' <= vy)%Q).
Proof.
  intros Hc d vy vy'. subst vy'. rewrite (collide_vel_y _ _ Hc).
  fold d vy. pose proof (spin_per_pixel d) as Hsp.
  set (spin := (Py.float d / (Py.float PADDLE_HEIGHT / 2) * 220)%Q) in *.
  assert (Hlh : (-520 <= 520)%Q) by lra.
  destruct (clamp_cases (vy + spin) (-520) 520 Hlh)
    as [[H E] | [[H E] | [H E]]]; rewrite E; clear E.
  - split; [intro; lra | split].
    + intros Hd Hv. rewrite Zle_Qle in Hd. change (inject_Z 0) with 0%Q in Hd.
      lra.
    + intros Hd Hv. exact Hv.
  - split; [intro; lra | split].
    + intros Hd Hv. rewrite Zle_Qle in Hd. change (inject_Z 0) with 0%Q in Hd.
      lra.
    + intros Hd Hv. rewrite Zle_Qle in Hd. change (inject_Z 0) with 0%Q in Hd.
      lra.
  - split; [intro; lra | split].
    + intros Hd Hv. exact Hv.
    + intros Hd Hv. rewrite Zle_Qle in Hd. change (inject_Z 0) with 0%Q in Hd.
      lra.
Qed.

Lemma collide_paddle_spin_witness :
  let b := mkBall (mkRect 30 330 12 12) 420%Q (-400)%Q 0%Q in
  (ball_vel_y (BallM.collide_paddle b paddle_at_start)
   == 0 + (22 # 5) * inject_Z 36)%Q.
Proof.
  intro b.
  assert (Hc : colliderect (ball_rect b) (paddle_rect paddle_at_start) = true)
    by (vm_compute; reflexivity).
  destruct (collide_paddle_spin b paddle_at_start Hc) as [H _].
  apply H. split; vm_compute; discriminate.
Defined.

(** X13. The order of the two paddle collisions of a frame is immaterial:
    with the player's paddle at x = 24 and the AI's at x = 764, as
    [Game.__init__] places them, colliding with the player first and the AI
    second gives the same ball as the other order. *)
Theorem collide_order_immaterial (b : Ball) (pl ai : Paddle) :
  BallM.sized b -> PaddleM.sized pl -> PaddleM.sized ai ->
  rect_x (paddle_rect pl) = PADDLE_MARGIN ->
  rect_x (paddle_rect ai) = WIDTH - PADDLE_MARGIN - PADDLE_WIDTH ->
  BallM.collide_paddle (BallM.collide_paddle b pl) ai
  = BallM.collide_paddle (BallM.collide_paddle b ai) pl.
Proof.
  intros Hb Hpl Hai Hx1 Hx2.
  pose proof Hb as [Hbw _]. pose proof Hpl as [Hplw _].
  pose proof Hai as [Haiw _].
  unfold BALL_SIZE, PADDLE_WIDTH, PADDLE_MARGIN, WIDTH in *.
  destruct (colliderect (ball_rect b) (paddle_rect pl)) eqn:Hc1.
  - pose proof (colliderect_x _ _ Hc1) as Hov.
    assert (Hm : BallM.collide_paddle b ai = b).
    { apply collide_no_overlap, colliderect_apart; lia. }
    rewrite Hm. apply collide_no_overlap, colliderect_apart.
    + destruct (sized_collide b pl Hb) as [Hw _].
      rewrite Hw. unfold BALL_SIZE. lia.
    + lia.
    + destruct (sized_collide b pl Hb) as [Hw _]. rewrite Hw.
      unfold BALL_SIZE. destruct (collide_rect_x b pl Hc1) as [E | E];
        rewrite E; lia.
  - rewrite (collide_no_overlap b pl Hc1).
    destruct (colliderect (ball_rect b) (paddle_rect ai)) eqn:Hc2.
    + symmetry. apply collide_no_overlap, colliderect_apart.
      * destruct (sized_collide b ai Hb) as [Hw _].
        rewrite Hw. unfold BALL_SIZE. lia.
      * lia.
      * destruct (sized_collide b ai Hb) as [Hw _]. rewrite Hw.
        unfold BALL_SIZE. destruct (collide_rect_x b ai Hc2) as [E | E];
          rewrite E; lia.
    + rewrite (collide_no_overlap b ai Hc2). symmetry.
      apply collide_no_overlap, Hc1.
Qed.

Lemma collide_order_immaterial_witness :
  let b := mkBall (mkRect 30 294 12 12) 420%Q (-420)%Q 100%Q in
  let g := game_with_vel 0 0 in
  BallM.collide_paddle (BallM.collide_paddle b (player g)) (ai g)
  = BallM.collide_paddle (BallM.collide_paddle b (ai g)) (player g).
Proof.
  intros b g.
  apply (collide_order_immaterial b (player g) (ai g));
    try (split; reflexivity); reflexivity.
Defined.

(** ** Prediction *)

Section ReflectFacts.

Local Open Scope Q_scope.

(** [Qfloor] is the only integer just below. *)
Lemma floor_unique (x : Q) (n : Z) :
  inject_Z n <= x -> x < inject_Z (n + 1) -> Qfloor x = n.
Proof.
  intros H0 H1.
  pose proof (Qfloor_le x) as Hlo. pose proof (Qlt_floor x) as Hhi.
  assert (A : (Qfloor x < n + 1)%Z).
  { rewrite Zlt_Qlt. apply Qle_lt_trans with x; assumption. }
  assert (B : (n < Qfloor x + 1)%Z).
  { rewrite Zlt_Qlt. apply Qle_lt_trans with x; assumption. }
  lia.
Qed.

(** [a % b] once the number of whole periods below [a] is known. *)
Lemma fmod_unique (a b : Q) (n : Z) :
  0 < b -> b * inject_Z n <= a -> a < b * inject_Z n + b ->
  Py.fmod a b == a - b * inject_Z n.
Proof.
  intros Hb H0 H1. unfold Py.fmod.
  assert (Hf : Qfloor (a / b) = n).
  { apply floor_unique.
    - apply Qle_shift_div_l; [assumption | lra].
    - rewrite inject_Z_plus. change (inject_Z 1) with 1.
      apply Qlt_shift_div_r; [assumption | lra]. }
  rewrite Hf. reflexivity.
Qed.

(** [a] as its remainder plus whole periods. *)
Lemma fmod_decompose (a b : Q) :
  a == Py.fmod a b + b * inject_Z (Qfloor (a / b)).
Proof. unfold Py.fmod. ring. Qed.

(** The fold as a function of the remainder. *)
Lemma reflect_of_mod (s m : Q) :
  Py.fmod s 1200 == m ->
  (m <= 600 -> GameM.reflect s == m) /\
  (600 < m -> GameM.reflect s == 1200 - m).
Proof.
  intro Hm. unfold GameM.reflect, Py.float.
  change (inject_Z (2 * HEIGHT)) with 1200.
  change (inject_Z HEIGHT) with 600.
  destruct (Py.leb _ _) eqn:E.
  - apply leb_true in E. split; intro H; lra.
  - apply leb_false in E. split; intro H; lra.
Qed.

End ReflectFacts.

(** With exact arithmetic the fold of the prediction is the triangular
    wave of period [2 * HEIGHT]: it is the identity on [0, HEIGHT], it is even (a y above
    the top wall is mirrored at the wall), and it has period
    [2 * HEIGHT]; so it lands in [0, HEIGHT] for every simulated y. *)
Theorem reflect_triangular (s : Q) :
  ((0 <= s <= Py.float HEIGHT)%Q -> (GameM.reflect s == s)%Q) /\
  (GameM.reflect (- s) == GameM.reflect s)%Q /\
  (forall n : Z,
      (GameM.reflect (s + Py.float (2 * HEIGHT) * inject_Z n)
       == GameM.reflect s)%Q) /\
  (0 <= GameM.reflect s <= Py.float HEIGHT)%Q.
Proof.
  unfold Py.float.
  change (inject_Z (2 * HEIGHT)) with 1200%Q.
  change (inject_Z HEIGHT) with 600%Q.
  assert (Hp : (0 < 1200)%Q) by reflexivity.
  pose proof (fmod_range s 1200 Hp) as Hr.
  pose proof (fmod_decompose s 1200) as Hd.
  set (m := Py.fmod s 1200) in *. set (k := Qfloor (s / 1200)) in *.
  assert (Hm : (Py.fmod s 1200 == m)%Q) by reflexivity.
  destruct (reflect_of_mod s m Hm) as [Rlo Rhi].
  split; [| split; [| split]].
  - intro Hs.
    assert (E : (Py.fmod s 1200 == s - 1200 * inject_Z 0)%Q)
      by (apply fmod_unique; change (inject_Z 0) with 0%Q; lra).
    change (inject_Z 0) with 0%Q in E.
    destruct (reflect_of_mod s s) as [R _]; [rewrite E; ring | apply R; lra].
  - destruct (Qeq_dec m 0) as [Hz | Hnz].
    + assert (E : (Py.fmod (- s) 1200 == 0)%Q).
      { rewrite (fmod_unique (- s) 1200 (- k) Hp);
          rewrite ?inject_Z_opp; lra. }
      destruct (reflect_of_mod (- s) 0 E) as [R _].
      rewrite R, Rlo; lra.
    + assert (Hpos : (0 < m)%Q).
      { destruct Hr as [H0 _]. apply Qle_lt_or_eq in H0.
        destruct H0 as [H0 | H0]; [exact H0 |].
        exfalso. apply Hnz. symmetry. exact H0. }
      assert (E : (Py.fmod (- s) 1200 == 1200 - m)%Q).
      { rewrite (fmod_unique (- s) 1200 (- k - 1) Hp);
          unfold Z.sub; rewrite ?inject_Z_plus, ?inject_Z_opp;
          change (inject_Z 1) with 1%Q; lra. }
      destruct (reflect_of_mod (- s) (1200 - m) E) as [R1 R2].
      destruct (Qlt_le_dec 600 m) as [Hbig | Hsmall].
      * rewrite R1, Rhi; lra.
      * destruct (Qlt_le_dec m 600) as [Hlt | Hge].
        -- rewrite R2, Rlo; lra.
        -- rewrite R1, Rlo; lra.
  - intro n.
    assert (E : (Py.fmod (s + 1200 * inject_Z n) 1200 == m)%Q).
    { rewrite (fmod_unique (s + 1200 * inject_Z n) 1200 (k + n) Hp);
        rewrite ?inject_Z_plus; lra. }
    destruct (reflect_of_mod _ m E) as [R1 R2].
    destruct (Qlt_le_dec 600 m) as [Hbig | Hsmall].
    + rewrite R2, Rhi; lra.
    + rewrite R1, Rlo; lra.
  - destruct (Qlt_le_dec 600 m) as [Hbig | Hsmall].
    + rewrite Rhi; lra.
    + rewrite Rlo; lra.
Qed.

(** With exact arithmetic, whatever the ball's velocity and the target
    x, the value of the prediction lies in [0, HEIGHT] when the ball's
    centre does. *)
Theorem predict_in_field (g : Game) (x : Z) :
  0 <= centery (ball_rect (ball g)) <= HEIGHT ->
  (0 <= GameM._predict_ball_y_at_x g x <= Py.float HEIGHT)%Q.
Proof.
  intros [H0 H1].
  assert (Hc : (0 <= Py.float (centery (ball_rect (ball g)))
                <= Py.float HEIGHT)%Q).
  { unfold Py.float. split.
    - change 0%Q with (inject_Z 0). rewrite <- Zle_Qle. exact H0.
    - rewrite <- Zle_Qle. exact H1. }
  unfold GameM._predict_ball_y_at_x.
  destruct (Py.eqb _ _); [exact Hc |].
  destruct (Py.leb _ _); [exact Hc |].
  apply reflect_range.
Qed.

Lemma predict_in_field_witness :
  (0 <= GameM._predict_ball_y_at_x (game_with_vel 37 (-4000)) 770
   <= Py.float HEIGHT)%Q.
Proof.
  apply (predict_in_field (game_with_vel 37 (-4000)) 770).
  split; vm_compute; discriminate.
Defined.

(** X16. A target x behind the ball, or level with it, is answered with
    the y of the ball's centre: for a ball moving right when [x] is not to
    the right of its centre, and for a ball moving left when [x] is not to
    the left of it. *)
Theorem predict_target_behind (g : Game) (x : Z) :
  ((0 < ball_vel_x (ball g))%Q /\ x <= centerx (ball_rect (ball g))) \/
  ((ball_vel_x (ball g) < 0)%Q /\ centerx (ball_rect (ball g)) <= x) ->
  GameM._predict_ball_y_at_x g x = Py.float (centery (ball_rect (ball g))).
Proof.
  intro H. apply predict_behind. unfold GameM.time_to_x, Py.float.
  set (v := ball_vel_x (ball g)) in *.
  set (cx := centerx (ball_rect (ball g))) in *.
  destruct H as [[Hv Hx] | [Hv Hx]].
  - rewrite Zle_Qle in Hx. apply Qle_shift_div_r; [exact Hv | lra].
  - rewrite Zle_Qle in Hx.
    assert (E : ((inject_Z x - inject_Z cx) / v
                 == (inject_Z cx - inject_Z x) / (- v))%Q)
      by (field; lra).
    rewrite E. apply Qle_shift_div_r; lra.
Qed.

Lemma predict_target_behind_witness :
  GameM._predict_ball_y_at_x (game_with_vel 420 100) 36 = 300%Q.
Proof.
  apply (predict_target_behind (game_with_vel 420 100) 36).
  left. split; [vm_compute; reflexivity | vm_compute; discriminate].
Defined.

(** ** The AI step *)

Section AiFacts.

Local Open Scope Q_scope.

(** [max(0, min(HEIGHT, v))] lies in [0, HEIGHT]. *)
Lemma target_clamped (v : Q) :
  0 <= Py.max 0 (Py.min (Py.float HEIGHT) v) <= Py.float HEIGHT.
Proof.
  unfold Py.float. change (inject_Z HEIGHT) with 600.
  unfold Py.max, Py.min.
  destruct (Py.ltb v 600) eqn:E1.
  - apply ltb_true in E1. destruct (Py.ltb 0 v) eqn:E2.
    + apply ltb_true in E2. lra.
    + lra.
  - destruct (Py.ltb 0 600) eqn:E2; lra.
Qed.

End AiFacts.

(** X17. The AI's reaction timer.  When the accumulated time reaches the
    reaction interval the timer restarts at 0 and a new target is set,
    which lies in [0, HEIGHT] whatever the prediction and the noise, and
    is the middle of the screen when the ball is not moving toward the AI;
    before that, the timer accumulates the frame time and the target is
    kept. *)
Theorem update_ai_timer (g : Game) (dt : Q) (f : Frame) :
  let g' := GameM._update_ai g dt f in
  (ai_reaction_ms g <= ai_timer g + tick_ms f ->
     ai_timer g' = 0 /\
     (0 <= ai_target_y g' <= Py.float HEIGHT)%Q /\
     ((ball_vel_x (ball g) <= 0)%Q -> ai_target_y g' = Py.float (HEIGHT / 2))) /\
  (ai_timer g + tick_ms f < ai_reaction_ms g ->
     ai_timer g' = ai_timer g + tick_ms f /\
     ai_target_y g' = ai_target_y g).
Proof.
  intro g'. subst g'. unfold GameM._update_ai. split; intro H.
  - replace (_ >=? _) with true
      by (symmetry; rewrite Z.geb_leb; apply Z.leb_le; exact H).
    cbn [ai_timer ai_target_y]. split; [reflexivity |]. split.
    + destruct (Py.ltb _ _); [apply target_clamped |].
      split; vm_compute; discriminate.
    + intro Hv. apply ltb_false in Hv. rewrite Hv. reflexivity.
  - replace (_ >=? _) with false
      by (symmetry; rewrite Z.geb_leb; apply Z.leb_gt; exact H).
    split; reflexivity.
Qed.

Lemma update_ai_timer_witness :
  let g := game_with_vel (-420) 100 in
  let f := mkFrame 150 false false false 0%Q 0%Q in
  ai_timer (GameM._update_ai g (150 # 1000) f) = 0 /\
  ai_target_y (GameM._update_ai g (150 # 1000) f) = Py.float (HEIGHT / 2).
Proof.
  intros g f.
  destruct (update_ai_timer g (150 # 1000) f) as [H _].
  assert (Hd : ai_reaction_ms g <= ai_timer g + tick_ms f)
    by (vm_compute; discriminate).
  destruct (H Hd) as [H1 [_ H2]].
  split; [exact H1 | apply H2]. vm_compute. discriminate.
Defined.

(** X18. The AI step touches only the AI: the player's paddle, the ball
    and the score come out as they went in; the AI's paddle is moved toward
    the target valid for this frame and keeps its x, size and speed. *)
Theorem update_ai_frame (g : Game) (dt : Q) (f : Frame) :
  let g' := GameM._update_ai g dt f in
  player g' = player g /\ ball g' = ball g /\ score g' = score g /\
  ai g' = PaddleM.move_towards (ai g) (ai_target_y g') dt /\
  rect_x (paddle_rect (ai g')) = rect_x (paddle_rect (ai g)) /\
  rect_w (paddle_rect (ai g')) = rect_w (paddle_rect (ai g)) /\
  rect_h (paddle_rect (ai g')) = rect_h (paddle_rect (ai g)) /\
  paddle_speed (ai g') = paddle_speed (ai g).
Proof.
  intro g'. subst g'. unfold GameM._update_ai.
  destruct (_ >=? _); cbn [player ball score ai ai_target_y];
    (repeat (split; [reflexivity |]));
    unfold PaddleM.move_towards;
    destruct (Py.leb _ _); repeat split.
Qed.

(** ** Events *)

(** X19. [_handle_events] answers [True] exactly when no event of the queue
    is a window close or an escape key press; the events after the first
    such event play no part, and key releases and other keys never stop the
    game. *)
Theorem handle_events_spec (events : list Event) :
  (_handle_events events = true <->
   forall e, List.In e events -> e <> QUIT /\ e <> KEYDOWN K_ESCAPE) /\
  (forall rest, _handle_events (events ++ rest)
                = (_handle_events events && _handle_events rest)%bool).
Proof.
  split.
  - induction events as [| e rest IH]; simpl.
    + split; [intros _ e [] | reflexivity].
    + destruct (stops e) eqn:E.
      * split; [discriminate |]. intro H.
        destruct (H e (or_introl eq_refl)) as [H1 H2].
        destruct e as [| [] | |]; simpl in E; try discriminate;
          [elim H1 | elim H2]; reflexivity.
      * rewrite IH. split.
        -- intros H e' [<- | Hin]; [| apply H, Hin].
           split; intro; subst e; discriminate.
        -- intros H e' Hin. apply H. right. exact Hin.
  - intro rest. induction events as [| e evs IH]; simpl.
    + reflexivity.
    + destruct (stops e); [reflexivity | exact IH].
Qed.

(** ** Scoring *)

Section ScoringMore.

(** A ball put back to the centre is in play. *)
Lemma reset_in_play (b : Ball) (direction : Z) (angle : Q) :
  BallM.sized b ->
  0 <= right (ball_rect (BallM.reset b direction angle)) /\
  left (ball_rect (BallM.reset b direction angle)) <= WIDTH.
Proof.
  intros [Hw _]. unfold BallM.reset, right, left, set_center.
  cbn [ball_rect rect_x rect_w fst]. rewrite Hw.
  split; vm_compute; discriminate.
Qed.

(** The three outcomes of the scoring check. *)
Lemma scoring_cases (g : Game) (f : Frame) :
  (right (ball_rect (ball g)) < 0 /\
   score (GameM.scoring g f)
     = mkScore (score_left (score g)) (score_right (score g) + 1) /\
   ball (GameM.scoring g f) = BallM.reset (ball g) 1 (serve_angle f)) \/
  (left (ball_rect (ball g)) > WIDTH /\
   score (GameM.scoring g f)
     = mkScore (score_left (score g) + 1) (score_right (score g)) /\
   ball (GameM.scoring g f) = BallM.reset (ball g) (-1) (serve_angle f)) \/
  (0 <= right (ball_rect (ball g)) /\ left (ball_rect (ball g)) <= WIDTH /\
   GameM.scoring g f = g).
Proof.
  unfold GameM.scoring.
  destruct (_ <? _) eqn:E1.
  - apply Z.ltb_lt in E1. left. repeat split. exact E1.
  - apply Z.ltb_ge in E1. destruct (_ >? _) eqn:E2.
    + rewrite Z.gtb_ltb in E2. apply Z.ltb_lt in E2.
      right. left. repeat split. lia.
    + rewrite Z.gtb_ltb in E2. apply Z.ltb_ge in E2.
      right. right. repeat split; assumption.
Qed.

Lemma scoring_others (g : Game) (f : Frame) :
  player (GameM.scoring g f) = player g /\ ai (GameM.scoring g f) = ai g /\
  serve_dir (GameM.scoring g f) = serve_dir g /\
  ai_reaction_ms (GameM.scoring g f) = ai_reaction_ms g /\
  ai_timer (GameM.scoring g f) = ai_timer g /\
  ai_target_y (GameM.scoring g f) = ai_target_y g /\
  ai_error_margin (GameM.scoring g f) = ai_error_margin g.
Proof.
  unfold GameM.scoring.
  destruct (_ <? _); [repeat split |].
  destruct (_ >? _); repeat split.
Qed.

(** One frame adds at most one point, and takes none away. *)
Lemma update_score_step (g : Game) (dt : Q) (f : Frame) :
  score_left (score g) <= score_left (score (GameM._update g dt f)) /\
  score_right (score g) <= score_right (score (GameM._update g dt f)) /\
  score_left (score (GameM._update g dt f))
    + score_right (score (GameM._update g dt f))
  <= score_left (score g) + score_right (score g) + 1.
Proof.
  unfold GameM._update. rewrite update_ai_score.
  destruct (scoring_cases (GameM.before_scoring g dt f) f)
    as [[_ [E _]] | [[_ [E _]] | [_ [_ E]]]]; rewrite E;
    cbn [score_left score_right GameM.before_scoring score]; lia.
Qed.

End ScoringMore.

(** X20. A ball that has not left the screen does not score, edges
    included: with [0 <= right] and [left <= WIDTH] at the scoring check,
    [_update] leaves the score as it was and the ball as the collisions
    left it. *)
Theorem update_in_play (g : Game) (dt : Q) (f : Frame) :
  let g1 := GameM.before_scoring g dt f in
  0 <= right (ball_rect (ball g1)) -> left (ball_rect (ball g1)) <= WIDTH ->
  score (GameM._update g dt f) = score g /\
  ball (GameM._update g dt f) = ball g1.
Proof.
  intros g1 H0 H1. unfold GameM._update.
  rewrite update_ai_score, update_ai_ball. fold g1.
  rewrite (scoring_in_play g1 f H0 H1). split; reflexivity.
Qed.

Lemma update_in_play_witness :
  let g := mkGame (PaddleM.init 24 250 520%Q) (PaddleM.init 764 250 500%Q)
                  (mkBall (mkRect (-12) 294 12 12) 420%Q 0%Q 0%Q)
                  (mkScore 3 5) 1 140 0 300%Q 32 in
  let f := mkFrame 16 false false false (1 # 10) 0%Q in
  score (GameM._update g (16 # 1000) f) = mkScore 3 5.
Proof.
  intros g f.
  apply (update_in_play g (16 # 1000) f); vm_compute; discriminate.
Defined.

(** X21. A point is counted once: the scoring check applied again right
    after itself changes nothing, because the ball it put back to the
    centre is in play (a ball of the constructor's size). *)
Theorem scoring_counts_once (g : Game) (f f' : Frame) :
  BallM.sized (ball g) ->
  GameM.scoring (GameM.scoring g f) f' = GameM.scoring g f.
Proof.
  intro Hs.
  destruct (scoring_cases g f) as [[_ [_ E]] | [[_ [_ E]] | [H0 [H1 E]]]].
  - apply scoring_in_play; rewrite E; apply reset_in_play, Hs.
  - apply scoring_in_play; rewrite E; apply reset_in_play, Hs.
  - rewrite E. apply scoring_in_play; assumption.
Qed.

Lemma scoring_counts_once_witness :
  let g := mkGame (PaddleM.init 24 250 520%Q) (PaddleM.init 764 250 500%Q)
                  (mkBall (mkRect 801 294 12 12) 420%Q 500%Q 0%Q)
                  (mkScore 3 5) 1 140 0 300%Q 32 in
  let f := mkFrame 16 false false false (1 # 10) 0%Q in
  score (GameM.scoring (GameM.scoring g f) f) = mkScore 4 5.
Proof.
  intros g f.
  assert (Hs : BallM.sized (ball g)) by (split; reflexivity).
  rewrite (scoring_counts_once g f f Hs). reflexivity.
Defined.

(** ** Whole runs *)

Section RunFacts.

Local Open Scope Z_scope.

Lemma same_paddle_refl (p : Paddle) : same_paddle_setup p p.
Proof. repeat split. Qed.

Lemma same_paddle_trans (p q r : Paddle) :
  same_paddle_setup p q -> same_paddle_setup q r -> same_paddle_setup p r.
Proof.
  intros [A1 [A2 [A3 A4]]] [B1 [B2 [B3 B4]]].
  repeat split; congruence.
Qed.

Lemma same_paddle_clamp (p : Paddle) : same_paddle_setup p (PaddleM._clamp p).
Proof. repeat split. Qed.

Lemma same_paddle_move_input (p : Paddle) (up down : bool) (dt : Q) :
  same_paddle_setup p (PaddleM.move_input p up down dt).
Proof. repeat split. Qed.

Lemma same_paddle_move_towards (p : Paddle) (target_y dt : Q) :
  same_paddle_setup p (PaddleM.move_towards p target_y dt).
Proof.
  unfold PaddleM.move_towards. destruct (Py.leb _ _); repeat split.
Qed.

Lemma same_setup_refl (g : Game) : same_setup g g.
Proof. repeat split. Qed.

Lemma same_setup_trans (g h k : Game) :
  same_setup g h -> same_setup h k -> same_setup g k.
Proof.
  intros [A1 [A2 [[A3 [A4 A5]] [A6 [A7 A8]]]]]
         [B1 [B2 [[B3 [B4 B5]] [B6 [B7 B8]]]]].
  split; [eapply same_paddle_trans; eassumption |].
  split; [eapply same_paddle_trans; eassumption |].
  repeat split; congruence.
Qed.

Lemma same_setup_update (g : Game) (dt : Q) (f : Frame) :
  same_setup g (GameM._update g dt f).
Proof.
  unfold GameM._update.
  apply same_setup_trans with (GameM.before_scoring g dt f);
    [| apply same_setup_trans
         with (GameM.scoring (GameM.before_scoring g dt f) f)].
  - unfold GameM.before_scoring.
    split; [apply same_paddle_move_input |].
    split; [apply same_paddle_refl |].
    split; [| repeat split]. cbn [ball].
    set (b1 := BallM.update (ball g) dt).
    set (p1 := PaddleM.move_input (player g) (key_w f) (key_s f) dt).
    assert (H1 : rect_w (ball_rect b1) = rect_w (ball_rect (ball g)) /\
                 rect_h (ball_rect b1) = rect_h (ball_rect (ball g)) /\
                 ball_base_speed b1 = ball_base_speed (ball g)).
    { subst b1. unfold BallM.update, BallM.bounce_walls.
      destruct (_ <=? _); [repeat split |].
      destruct (_ >=? _); repeat split. }
    assert (H2 : forall b p,
               rect_w (ball_rect (BallM.collide_paddle b p))
                 = rect_w (ball_rect b) /\
               rect_h (ball_rect (BallM.collide_paddle b p))
                 = rect_h (ball_rect b) /\
               ball_base_speed (BallM.collide_paddle b p)
                 = ball_base_speed b).
    { intros b p. unfold BallM.collide_paddle.
      destruct (negb _); [repeat split |].
      destruct (Py.ltb _ _); repeat split. }
    destruct H1 as [A1 [A2 A3]].
    destruct (H2 b1 p1) as [B1 [B2 B3]].
    destruct (H2 (BallM.collide_paddle b1 p1) (ai g)) as [C1 [C2 C3]].
    repeat split; congruence.
  - set (g1 := GameM.before_scoring g dt f).
    destruct (scoring_others g1 f) as [E1 [E2 [E3 [E4 [_ [_ E5]]]]]].
    split; [rewrite E1; apply same_paddle_refl |].
    split; [rewrite E2; apply same_paddle_refl |].
    split; [| repeat split; assumption].
    destruct (scoring_cases g1 f) as [[_ [_ E]] | [[_ [_ E]] | [_ [_ E]]]];
      rewrite E; repeat split.
  - set (g2 := GameM.scoring (GameM.before_scoring g dt f) f).
    unfold GameM._update_ai.
    destruct (_ >=? _); (split; [apply same_paddle_refl |]);
      (split; [apply same_paddle_move_towards | repeat split]).
Qed.

(** The velocity caps are kept by every step of a frame. *)

Lemma vel_update (b : Ball) (dt : Q) :
  vel_in_play b -> vel_in_play (BallM.update b dt).
Proof.
  intros [H1 [[H2 H3] H4]]. unfold vel_in_play, vel_capped.
  rewrite update_vel_x, base_speed_update.
  assert (E : (Qabs (ball_vel_y (BallM.update b dt))
               == Qabs (ball_vel_y b))%Q).
  { rewrite update_vel_y. destruct (_ || _)%bool;
      [apply Qabs_opp | reflexivity]. }
  rewrite E. repeat split; assumption.
Qed.

Lemma abs_clamped_vel_x (x : Q) :
  (420 <= Qabs x)%Q ->
  (420 <= Qabs (Py.max (Py.min (- x * (104 # 100)) 720) (-720)) <= 720)%Q.
Proof.
  intro H.
  assert (Hlh : (-720 <= 720)%Q) by lra.
  destruct (clamp_cases (- x * (104 # 100))%Q (-720)%Q 720%Q Hlh)
    as [[Hc E] | [[Hc E] | [Hc E]]]; rewrite E; clear E.
  - split; vm_compute; discriminate.
  - revert H. apply Qabs_case; intros Hx H; apply Qabs_case; intro; lra.
  - split; vm_compute; discriminate.
Qed.

Lemma vel_collide (b : Ball) (p : Paddle) :
  vel_in_play b -> vel_in_play (BallM.collide_paddle b p).
Proof.
  intros [H1 [[H2 H3] H4]].
  destruct (colliderect (ball_rect b) (paddle_rect p)) eqn:Hc.
  - unfold vel_in_play, vel_capped.
    rewrite base_speed_collide, (collide_vel_x _ _ Hc).
    destruct (abs_clamped_vel_x _ H1) as [A B].
    repeat split; try assumption.
    apply Qabs_Qle_condition, collide_vel_y_bounds, Hc.
  - rewrite (collide_no_overlap _ _ Hc). repeat split; assumption.
Qed.

Lemma vel_reset (b : Ball) (direction : Z) (angle : Q) :
  ball_base_speed b = 420%Q -> direction = 1 \/ direction = -1 ->
  BallM.angle_drawn angle ->
  vel_in_play (BallM.reset b direction angle).
Proof.
  intros Hb Hd [A0 A1]. unfold vel_in_play, vel_capped, BallM.reset.
  cbn [ball_vel_x ball_vel_y ball_base_speed]. rewrite Hb.
  assert (Hy : (Qabs (420 * angle) <= 520)%Q)
    by (apply Qabs_Qle_condition; lra).
  destruct Hd as [-> | ->];
    (repeat split; [vm_compute; discriminate | vm_compute; discriminate
                   | exact Hy]).
Qed.

Lemma vel_update_frame (g : Game) (dt : Q) (f : Frame) :
  frame_drawn f -> vel_in_play (ball g) ->
  vel_in_play (ball (GameM._update g dt f)).
Proof.
  intros Hf Hv. unfold GameM._update. rewrite update_ai_ball.
  set (g1 := GameM.before_scoring g dt f).
  assert (H1 : vel_in_play (ball g1)).
  { subst g1. unfold GameM.before_scoring. cbn [ball].
    auto using vel_collide, vel_update. }
  assert (Hb : ball_base_speed (ball g1) = 420%Q) by apply H1.
  destruct (scoring_cases g1 f) as [[_ [_ E]] | [[_ [_ E]] | [_ [_ E]]]];
    rewrite E.
  - apply vel_reset; [exact Hb | left; reflexivity | exact Hf].
  - apply vel_reset; [exact Hb | right; reflexivity | exact Hf].
  - exact H1.
Qed.

Lemma run_app (fs1 fs2 : list Frame) (g : Game) :
  no_quit fs1 = true ->
  GameM.run g (fs1 ++ fs2) = GameM.run (GameM.run g fs1) fs2.
Proof.
  revert g. induction fs1 as [| f rest IH]; intros g H; simpl in *.
  - reflexivity.
  - apply andb_prop in H. destruct H as [Hq Hr].
    destruct (quit f); [discriminate |]. apply IH, Hr.
Qed.

End RunFacts.

(** X22. Along a run the two scores never go down, and together they grow
    by at most one point per frame. *)
Theorem run_score_monotone (frames : list Frame) (g : Game) :
  let g' := GameM.run g frames in
  score_left (score g) <= score_left (score g') /\
  score_right (score g) <= score_right (score g') /\
  score_left (score g') + score_right (score g')
  <= score_left (score g) + score_right (score g)
     + Z.of_nat (length frames).
Proof.
  revert g. induction frames as [| f rest IH]; intros g; cbn zeta.
  - simpl. lia.
  - cbn [GameM.run length]. destruct (quit f); [lia |].
    set (dt := (Py.float (tick_ms f) / 1000)%Q).
    pose proof (update_score_step g dt f) as [A [B C]].
    pose proof (IH (GameM._update g dt f)) as [A' [B' C']].
    cbn zeta in A', B', C'. lia.
Qed.

(** X23. A run never changes the set-up: the x, size and speed of either
    paddle, the size and base speed of the ball, the serve direction and
    the AI's reaction interval and error margin are at the end what they
    were at the start. *)
Theorem run_keeps_setup (frames : list Frame) (g : Game) :
  same_setup g (GameM.run g frames).
Proof.
  revert g. induction frames as [| f rest IH]; intros g; simpl.
  - apply same_setup_refl.
  - destruct (quit f); [apply same_setup_refl |].
    eapply same_setup_trans; [apply same_setup_update | apply IH].
Qed.

(** X24. Whatever the random draws, the keys and the frame times, every
    state a run reaches from a new game has both paddles and the ball
    vertically inside the play area, with the sizes they were built
    with. *)
Theorem run_stays_inside (ball_dir : Z) (angle : Q) (serve : Z)
    (frames : list Frame) :
  let g := GameM.run (GameM.init ball_dir angle serve) frames in
  game_inv g /\
  0 <= rect_y (paddle_rect (player g)) <= HEIGHT - PADDLE_HEIGHT /\
  0 <= rect_y (paddle_rect (ai g)) <= HEIGHT - PADDLE_HEIGHT /\
  0 <= rect_y (ball_rect (ball g)) <= HEIGHT - BALL_SIZE.
Proof.
  intro g.
  assert (H : game_inv g) by (apply inv_run, inv_init).
  split; [exact H |].
  destruct H as [[[_ Hp] [P0 P1]] [[[_ Ha] [A0 A1]] [[_ Hb] [B0 B1]]]].
  unfold top, bottom in *. rewrite Hp in P1. rewrite Ha in A1.
  rewrite Hb in B1. unfold HEIGHT, PADDLE_HEIGHT, BALL_SIZE in *. lia.
Qed.

(** X25. In a run from a new game whose draws obey their contracts
    (direction 1 or -1, angles in [-0.35, 0.35]) the ball's velocity stays
    within the caps, [|vel.x| <= 720] and [|vel.y| <= 520], and the
    horizontal speed never falls below the serve speed 420; in particular
    the horizontal velocity is never 0. *)
Theorem run_keeps_velocity (ball_dir : Z) (angle : Q) (serve : Z)
    (frames : list Frame) :
  ball_dir = 1 \/ ball_dir = -1 ->
  BallM.angle_drawn angle ->
  List.Forall frame_drawn frames ->
  let b := ball (GameM.run (GameM.init ball_dir angle serve) frames) in
  vel_in_play b /\ ~ (ball_vel_x b == 0)%Q.
Proof.
  intros Hd Ha Hf b.
  assert (H : vel_in_play b).
  { subst b.
    assert (H0 : vel_in_play (ball (GameM.init ball_dir angle serve))).
    { unfold GameM.init, BallM.init. cbn [ball].
      apply vel_reset; [reflexivity | exact Hd | exact Ha]. }
    revert H0. generalize (GameM.init ball_dir angle serve).
    induction Hf as [| f rest Hf1 Hrest IH]; intros g H0; simpl.
    - exact H0.
    - destruct (quit f); [exact H0 |].
      apply IH. apply vel_update_frame; assumption. }
  split; [exact H |].
  intro Hz. destruct H as [H _]. rewrite Hz in H.
  revert H. vm_compute. intro H. apply H. reflexivity.
Qed.

Lemma run_keeps_velocity_witness :
  let f := mkFrame 16 false false true (1 # 10) 0%Q in
  vel_in_play (ball (GameM.run (GameM.init (-1) (1 # 5) 1) (f :: f :: nil))).
Proof.
  intro f.
  assert (Hd : (-1 = 1 \/ -1 = -1)%Z) by (right; reflexivity).
  assert (Ha : BallM.angle_drawn (1 # 5))
    by (split; vm_compute; discriminate).
  assert (Hf : List.Forall frame_drawn (f :: f :: nil)).
  { repeat constructor; vm_compute; discriminate. }
  exact (proj1 (run_keeps_velocity (-1) (1 # 5) 1 (f :: f :: nil) Hd Ha Hf)).
Defined.

(** X26. [run] stops at the first frame with a quit event: that frame and
    all later ones are not played; frames without one compose, a run over
    two lists being the run over the second started from the end of the
    first. *)
Theorem run_stops_at_quit (fs1 fs2 : list Frame) (f : Frame) (g : Game) :
  no_quit fs1 = true ->
  (quit f = true -> GameM.run g (fs1 ++ f :: fs2) = GameM.run g fs1) /\
  GameM.run g (fs1 ++ fs2) = GameM.run (GameM.run g fs1) fs2.
Proof.
  intro H. split.
  - intro Hq. rewrite (run_app _ _ _ H). simpl. rewrite Hq. reflexivity.
  - apply run_app, H.
Qed.

Lemma run_stops_at_quit_witness :
  let f1 := mkFrame 16 false false true (1 # 10) 0%Q in
  let f2 := frame_of 16 (KEYUP K_w :: KEYDOWN K_ESCAPE :: nil)
                     true false (1 # 10) 0%Q in
  let g := game_with_vel 500 0 in
  GameM.run g ((f1 :: nil) ++ f2 :: f1 :: nil) = GameM.run g (f1 :: nil).
Proof.
  intros f1 f2 g.
  assert (H : no_quit (f1 :: nil) = true) by reflexivity.
  destruct (run_stops_at_quit (f1 :: nil) (f1 :: nil) f2 g H) as [Hq _].
  apply Hq. reflexivity.
Defined.

(** X27. The AI's state in a run from a new game with non-negative frame
    times: the target stays in [0, HEIGHT] and the reaction timer stays
    in [0, 140). *)
Theorem run_ai_state (ball_dir : Z) (angle : Q) (serve : Z)
    (frames : list Frame) :
  List.Forall (fun f => 0 <= tick_ms f) frames ->
  let g := GameM.run (GameM.init ball_dir angle serve) frames in
  (0 <= ai_target_y g <= Py.float HEIGHT)%Q /\ 0 <= ai_timer g < 140.
Proof.
  intros Hf g. subst g.
  set (ok := fun g : Game =>
               ((0 <= ai_target_y g <= Py.float HEIGHT)%Q /\
                0 <= ai_timer g < 140) /\ ai_reaction_ms g = 140).
  assert (H0 : ok (GameM.init ball_dir angle serve)).
  { unfold ok. cbn. repeat split; try lia; vm_compute; discriminate. }
  assert (Hstep : forall g dt f, 0 <= tick_ms f -> ok g ->
                                 ok (GameM._update g dt f)).
  { intros g dt f Ht [[Htg Htm] Hr]. unfold ok, GameM._update.
    set (g2 := GameM.scoring (GameM.before_scoring g dt f) f).
    destruct (scoring_others (GameM.before_scoring g dt f) f)
      as [_ [_ [_ [E1 [E2 [E3 _]]]]]].
    fold g2 in E1, E2, E3. cbn in E1, E2, E3.
    unfold GameM._update_ai. rewrite E1, E2, E3, Hr.
    destruct (_ >=? _) eqn:E; cbn [ai_target_y ai_timer ai_reaction_ms].
    - split; [split; [| lia] | reflexivity].
      destruct (Py.ltb _ _); [apply target_clamped |].
      split; vm_compute; discriminate.
    - rewrite Z.geb_leb in E. apply Z.leb_gt in E.
      split; [split; [exact Htg | lia] | reflexivity]. }
  assert (H : ok (GameM.run (GameM.init ball_dir angle serve) frames)).
  { revert H0. generalize (GameM.init ball_dir angle serve).
    induction Hf as [| f rest Hf1 Hrest IH]; intros g H0; simpl.
    - exact H0.
    - destruct (quit f); [exact H0 |]. apply IH, Hstep; assumption. }
  exact (proj1 H).
Qed.

Lemma run_ai_state_witness :
  let f := mkFrame 100 false false true (1 # 10) 7%Q in
  0 <= ai_timer (GameM.run (GameM.init 1 (1 # 5) 1) (f :: f :: f :: nil)) < 140.
Proof.
  intro f.
  assert (Hf : List.Forall (fun f => 0 <= tick_ms f) (f :: f :: f :: nil)).
  { repeat constructor; vm_compute; discriminate. }
  exact (proj2 (run_ai_state 1 (1 # 5) 1 (f :: f :: f :: nil) Hf)).
Defined.

(** ** Construction *)


(** * The checked level *)

(** ** C ints *)

Section CIntFacts.

Lemma fits_true (z : Z) :
  CInt.fits z = true <-> CInt.INT_MIN <= z <= CInt.INT_MAX.
Proof.
  unfold CInt.fits. rewrite andb_true_iff, !Z.leb_le. tauto.
Qed.


Lemma assign_fits (z : Z) :
  CInt.INT_MIN <= z <= CInt.INT_MAX -> CInt.assign z = Ok z.
Proof.
  intro H. unfold CInt.assign. apply fits_true in H. rewrite H. reflexivity.
Qed.


(** A value in range is what it is; one up to a whole turn above comes
    out a turn lower. *)
Lemma wrap_id (z : Z) :
  CInt.INT_MIN <= z <= CInt.INT_MAX -> CInt.wrap z = z.
Proof.
  unfold CInt.wrap, CInt.INT_MIN, CInt.INT_MAX. intro H.
  rewrite Z.mod_small; [lia |].
  change (2 ^ 32) with 4294967296. lia.
Qed.

Lemma wrap_above (z : Z) :
  CInt.INT_MAX < z <= CInt.INT_MAX + 2 ^ 32 -> CInt.wrap z = z - 2 ^ 32.
Proof.
  unfold CInt.wrap, CInt.INT_MIN, CInt.INT_MAX.
  change (2 ^ 32) with 4294967296. intro H.
  replace (z - -2147483648) with ((z - 2147483648) + 1 * 4294967296) by lia.
  rewrite Z.mod_add by discriminate.
  rewrite Z.mod_small; lia.
Qed.

Lemma wrap_below (z : Z) :
  CInt.INT_MIN - 2 ^ 32 <= z < CInt.INT_MIN -> CInt.wrap z = z + 2 ^ 32.
Proof.
  unfold CInt.wrap, CInt.INT_MIN, CInt.INT_MAX.
  change (2 ^ 32) with 4294967296. intro H.
  replace (z - -2147483648)
    with ((z + 6442450944) + (-1) * 4294967296) by lia.
  rewrite Z.mod_add by discriminate.
  rewrite Z.mod_small; lia.
Qed.

Lemma wrap_range (z : Z) : CInt.INT_MIN <= CInt.wrap z <= CInt.INT_MAX.
Proof.
  unfold CInt.wrap, CInt.INT_MIN, CInt.INT_MAX.
  pose proof (Z.mod_pos_bound (z - -2147483648) (2 ^ 32)) as H.
  change (2 ^ 32) with 4294967296 in *. lia.
Qed.

End CIntFacts.

(** ** Paddle, checked *)

Section PaddleCFacts.

Local Open Scope result_scope.

(** [_clamp] on C ints, by the paddle's row: in range it is the clamp of
    the arithmetic level; with the bottom edge past [INT_MAX] it returns
    the paddle where it was. *)
Lemma clamp_refines (p : Paddle) :
  PaddleM.sized p -> PaddleC.in_range p ->
  PaddleC._clamp p = Ok (PaddleM._clamp p).
Proof.
  intros [_ Hh] [H0 H1].
  unfold PaddleC._clamp, PaddleM._clamp, RectC.set_top, RectC.set_bottom,
    RectC.set_y, RectC.top, RectC.bottom.
  unfold CInt.INT_MIN, CInt.INT_MAX, PADDLE_HEIGHT, HEIGHT in *.
  rewrite assign_fits by (unfold CInt.INT_MIN, CInt.INT_MAX; lia).
  cbn [bind]. rect_simpl. rewrite Hh.
  rewrite (wrap_id (Z.max 0 (rect_y (paddle_rect p)) + 100))
    by (unfold CInt.INT_MIN, CInt.INT_MAX; lia).
  rewrite assign_fits by (unfold CInt.INT_MIN, CInt.INT_MAX; lia).
  cbn [bind]. rect_simpl.
  rewrite wrap_id by (unfold CInt.INT_MIN, CInt.INT_MAX; lia).
  reflexivity.
Qed.

Lemma clamp_stuck (p : Paddle) :
  PaddleM.sized p ->
  CInt.INT_MAX - PADDLE_HEIGHT < rect_y (paddle_rect p) <= CInt.INT_MAX ->
  PaddleC._clamp p = Ok p.
Proof.
  intros [_ Hh] [H0 H1]. destruct p as [[x y w h] s].
  unfold PaddleC._clamp, RectC.set_top, RectC.set_bottom,
    RectC.set_y, RectC.top, RectC.bottom.
  cbn [paddle_rect paddle_speed rect_x rect_y rect_w rect_h] in *.
  unfold CInt.INT_MIN, CInt.INT_MAX, PADDLE_HEIGHT, HEIGHT in *. subst h.
  rewrite assign_fits by (unfold CInt.INT_MIN, CInt.INT_MAX; lia).
  cbn [bind]. unfold RectOps.set_y.
  cbn [rect_x rect_y rect_w rect_h].
  replace (Z.max 0 y) with y by lia.
  rewrite (wrap_above (y + 100))
    by (unfold CInt.INT_MAX; change (2 ^ 32) with 4294967296; lia).
  change (2 ^ 32) with 4294967296.
  replace (Z.min 600 (y + 100 - 4294967296)) with (y + 100 - 4294967296)
    by lia.
  rewrite assign_fits by (unfold CInt.INT_MIN, CInt.INT_MAX; lia).
  cbn [bind]. cbn [rect_x rect_y rect_w rect_h].
  rewrite wrap_below
    by (unfold CInt.INT_MIN; change (2 ^ 32) with 4294967296; lia).
  change (2 ^ 32) with 4294967296.
  replace (y + 100 - 4294967296 - 100 + 4294967296) with y by lia.
  reflexivity.
Qed.




End PaddleCFacts.




(** A paddle whose row is in range is handled by the checked level as by
    the arithmetic level; one whose bottom edge has overflowed is left
    where it is by [_clamp]. *)
Lemma clamp_checked_cases (p : Paddle) :
  PaddleM.sized p ->
  CInt.INT_MIN <= rect_y (paddle_rect p) <= CInt.INT_MAX ->
  PaddleC._clamp p
  = Ok (if rect_y (paddle_rect p) <=? CInt.INT_MAX - PADDLE_HEIGHT
        then PaddleM._clamp p else p).
Proof.
  intros Hs [H0 H1]. destruct (_ <=? _) eqn:E.
  - apply Z.leb_le in E. apply clamp_refines; [exact Hs | split; assumption].
  - apply Z.leb_gt in E. apply clamp_stuck; [exact Hs | split; assumption].
Qed.

(** ** Prediction, checked *)

Section PredictCFacts.

Local Open Scope Q_scope.

(** The quotient of line 222 raises exactly on a zero velocity. *)
Lemma time_to_x_raises (g : Game) (x : Z) :
  GameC.time_to_x g x = Raise ZeroDivisionError <->
  ball_vel_x (ball g) == 0.
Proof.
  unfold GameC.time_to_x, GameC.truediv.
  destruct (Py.eqb _ _) eqn:E.
  - apply eqb_true in E. split; [intros _; exact E | reflexivity].
  - split; [discriminate |]. intro H. apply eqb_true in H. congruence.
Qed.

Lemma time_to_x_value (g : Game) (x : Z) :
  ~ ball_vel_x (ball g) == 0 ->
  GameC.time_to_x g x = Ok (GameM.time_to_x g x).
Proof.
  intro H. unfold GameC.time_to_x, GameC.truediv.
  destruct (Py.eqb _ _) eqn:E; [apply eqb_true in E; contradiction |].
  reflexivity.
Qed.

(** The prediction never raises, and its value is that of the arithmetic
    level. *)
Lemma predict_refines (g : Game) (x : Z) :
  GameC._predict_ball_y_at_x g x = Ok (GameM._predict_ball_y_at_x g x).
Proof.
  unfold GameC._predict_ball_y_at_x, GameM._predict_ball_y_at_x.
  destruct (Py.eqb (ball_vel_x (ball g)) 0) eqn:E; [reflexivity |].
  rewrite time_to_x_value.
  - cbn [bind]. destruct (Py.leb _ _); reflexivity.
  - intro H. apply eqb_true in H. congruence.
Qed.

End PredictCFacts.

(** C6. For a ball whose horizontal velocity is 0, whatever its vertical
    velocity and the target x: the quotient by the velocity would raise
    [ZeroDivisionError], and the prediction does not raise but returns the
    y of the ball's centre; the guard answers before the quotient is
    formed. *)
Theorem predict_zero_vel_guarded (g : Game) (x : Z) :
  (ball_vel_x (ball g) == 0)%Q ->
  GameC.time_to_x g x = Raise ZeroDivisionError /\
  GameC._predict_ball_y_at_x g x
    = Ok (Py.float (centery (ball_rect (ball g)))).
Proof.
  intro Hz. split.
  - apply time_to_x_raises, Hz.
  - unfold GameC._predict_ball_y_at_x.
    apply eqb_true in Hz. rewrite Hz. reflexivity.
Qed.

Lemma predict_zero_vel_guarded_witness :
  GameC.time_to_x (game_with_vel 0 250) 770 = Raise ZeroDivisionError /\
  GameC._predict_ball_y_at_x (game_with_vel 0 250) 770 = Ok 300%Q.
Proof.
  apply (predict_zero_vel_guarded (game_with_vel 0 250) 770).
  vm_compute. reflexivity.
Defined.

(** ** Ball, checked *)

Section BallCFacts.

Local Open Scope result_scope.

(** The wall check on C ints, for a ball whose bottom edge fits. *)
Lemma bounce_refines (b : Ball) :
  BallM.sized b ->
  CInt.INT_MIN <= rect_y (ball_rect b) <= CInt.INT_MAX - BALL_SIZE ->
  BallC.bounce_walls b = Ok (BallM.bounce_walls b).
Proof.
  intros [_ Hh] [H0 H1].
  unfold BallC.bounce_walls, BallM.bounce_walls, RectC.top, RectC.bottom,
    RectC.set_top, RectC.set_bottom, RectC.set_y, top, bottom.
  unfold CInt.INT_MIN, CInt.INT_MAX, BALL_SIZE in *. rewrite Hh.
  rewrite (wrap_id (rect_y (ball_rect b) + 12))
    by (unfold CInt.INT_MIN, CInt.INT_MAX; lia).
  destruct (_ <=? _).
  - rewrite assign_fits by (unfold CInt.INT_MIN, CInt.INT_MAX; lia).
    reflexivity.
  - destruct (_ >=? _); [| reflexivity].
    rewrite assign_fits
      by (unfold CInt.INT_MIN, CInt.INT_MAX, HEIGHT; lia).
    cbn [bind]. rewrite wrap_id
      by (unfold CInt.INT_MIN, CInt.INT_MAX, HEIGHT; lia).
    unfold set_bottom. rewrite Hh. reflexivity.
Qed.

(** The two [+=] store the sums or raise. *)
Lemma move_by_fits (b : Ball) (dx dy : Z) :
  CInt.INT_MIN <= rect_x (ball_rect b) + dx <= CInt.INT_MAX ->
  CInt.INT_MIN <= rect_y (ball_rect b) + dy <= CInt.INT_MAX ->
  BallC.move_by b dx dy
  = Ok (mkBall (mkRect (rect_x (ball_rect b) + dx) (rect_y (ball_rect b) + dy)
                       (rect_w (ball_rect b)) (rect_h (ball_rect b)))
               (ball_base_speed b) (ball_vel_x b) (ball_vel_y b)).
Proof.
  intros Hx Hy. unfold BallC.move_by, RectC.set_x, RectC.set_y.
  rewrite (assign_fits _ Hx). cbn [bind]. rect_simpl.
  rewrite (assign_fits _ Hy). reflexivity.
Qed.

Lemma move_by_overflow (b : Ball) (dx dy : Z) :
  CInt.fits (rect_x (ball_rect b) + dx) = false \/
  CInt.fits (rect_y (ball_rect b) + dy) = false ->
  BallC.move_by b dx dy = Raise TypeError.
Proof.
  intro H. unfold BallC.move_by, RectC.set_x, RectC.set_y, CInt.assign.
  destruct (CInt.fits (rect_x (ball_rect b) + dx)) eqn:Ex; [| reflexivity].
  destruct H as [H | H]; [discriminate |].
  cbn [bind]. rect_simpl. rewrite H. reflexivity.
Qed.

End BallCFacts.

(** X6. [Ball.update] on C ints, for a 12 x 12 ball and whatever pixel
    counts the two truncations give: when the displaced x fits a C int and
    the displaced y lies between [INT_MIN] and [INT_MAX - 12], the ball
    ends vertically inside the play area, exactly on the top wall if it
    reached or passed it and exactly on the bottom wall if it reached or
    passed that; when a displaced coordinate does not fit, the assignment
    raises [TypeError]. *)
Theorem update_lands_inside_checked (b : Ball) (dx dy : Z) :
  BallM.sized b ->
  let x' := rect_x (ball_rect b) + dx in
  let y' := rect_y (ball_rect b) + dy in
  let outcome := bind (BallC.move_by b dx dy) BallC.bounce_walls in
  (CInt.INT_MIN <= x' <= CInt.INT_MAX ->
   CInt.INT_MIN <= y' <= CInt.INT_MAX - BALL_SIZE ->
   exists b', outcome = Ok b' /\ BallM.in_bounds b' /\
              (y' <= 0 -> top (ball_rect b') = 0) /\
              (HEIGHT <= y' + BALL_SIZE ->
                 bottom (ball_rect b') = HEIGHT)) /\
  (CInt.fits x' = false \/ CInt.fits y' = false ->
   outcome = Raise TypeError).
Proof.
  intros Hs x' y' outcome. subst outcome. pose proof Hs as [Hw Hh].
  split.
  - intros Hx Hy.
    rewrite move_by_fits
      by (fold x' y'; unfold CInt.INT_MAX, BALL_SIZE in *; lia).
    fold x' y'. cbn [bind].
    set (b1 := mkBall _ _ _ _).
    assert (Hs1 : BallM.sized b1) by (split; assumption).
    rewrite (bounce_refines b1 Hs1 Hy).
    eexists. split; [reflexivity |].
    unfold BallM.in_bounds, BallM.bounce_walls, b1. rect_simpl.
    unfold BALL_SIZE, HEIGHT in *.
    destruct (y' <=? 0) eqn:E1.
    + apply Z.leb_le in E1. rect_simpl. rewrite Hh. lia.
    + apply Z.leb_gt in E1. rewrite Hh.
      destruct (y' + 12 >=? 600) eqn:E2.
      * rect_simpl. rewrite ?Hh. lia.
      * rewrite Z.geb_leb in E2. apply Z.leb_gt in E2. rect_simpl.
        rewrite ?Hh. lia.
  - intro H. rewrite (move_by_overflow b dx dy H). reflexivity.
Qed.

Lemma update_lands_inside_checked_witness :
  let b := mkBall (mkRect 100 3 12 12) 420%Q 420%Q (-512)%Q in
  exists b', BallC.update b (1 # 64) = Ok b' /\ BallM.in_bounds b' /\
             top (ball_rect b') = 0.
Proof.
  intro b.
  assert (Hs : BallM.sized b) by (split; reflexivity).
  destruct (update_lands_inside_checked b 6 (-8) Hs) as [H _].
  destruct H as [b' [E [Hin [Ht _]]]];
    [split; vm_compute; discriminate | split; vm_compute; discriminate |].
  exists b'. split; [exact E | split; [exact Hin | apply Ht]].
  vm_compute. discriminate.
Defined.

(** X7. Free flight on C ints, for whatever pixel counts the two
    truncations give: when the displaced x fits a C int and the displaced
    ball is strictly between the two walls, [Ball.update] stores the two
    sums and changes nothing else: no snap, and the velocity as it was. *)
Theorem update_free_flight_checked (b : Ball) (dx dy : Z) :
  CInt.INT_MIN <= rect_x (ball_rect b) + dx <= CInt.INT_MAX ->
  0 < rect_y (ball_rect b) + dy ->
  0 <= rect_h (ball_rect b) ->
  rect_y (ball_rect b) + dy + rect_h (ball_rect b) < HEIGHT ->
  bind (BallC.move_by b dx dy) BallC.bounce_walls
  = Ok (mkBall (mkRect (rect_x (ball_rect b) + dx) (rect_y (ball_rect b) + dy)
                       (rect_w (ball_rect b)) (rect_h (ball_rect b)))
               (ball_base_speed b) (ball_vel_x b) (ball_vel_y b)).
Proof.
  intros Hx H0 Hh H1. unfold HEIGHT in H1.
  rewrite move_by_fits
    by (try assumption; unfold CInt.INT_MIN, CInt.INT_MAX; lia).
  cbn [bind]. unfold BallC.bounce_walls, RectC.top, RectC.bottom.
  rect_simpl.
  rewrite wrap_id by (unfold CInt.INT_MIN, CInt.INT_MAX; lia).
  replace (_ <=? 0) with false by (symmetry; apply Z.leb_gt; lia).
  replace (_ >=? HEIGHT) with false
    by (symmetry; rewrite Z.geb_leb; apply Z.leb_gt; unfold HEIGHT; lia).
  reflexivity.
Qed.

Lemma update_free_flight_checked_witness :
  BallC.update (ball (game_with_vel 420 (-128))) (1 # 64)
  = Ok (mkBall (mkRect (394 + 6) (294 + -2) 12 12) 420%Q 420%Q (-128)%Q).
Proof.
  apply (update_free_flight_checked (ball (game_with_vel 420 (-128))) 6 (-2));
    try (split; vm_compute; discriminate); vm_compute;
    solve [reflexivity | discriminate].
Defined.

(** ** The fold on whole pixels *)

Section ReflectPixels.

Local Open Scope Q_scope.

Lemma leb_wd (a a' b b' : Q) :
  a == a' -> b == b' -> Py.leb a b = Py.leb a' b'.
Proof. intros Ha Hb. unfold Py.leb. rewrite Ha, Hb. reflexivity. Qed.

(** The fold does not depend on how the rational is written. *)
Lemma reflect_wd (s s' : Q) : s == s' -> GameM.reflect s == GameM.reflect s'.
Proof.
  intro H. unfold GameM.reflect.
  pose proof (fmod_wd s s' (Py.float (2 * HEIGHT)) H) as Hm.
  rewrite (leb_wd _ _ _ _ Hm (Qeq_refl (Py.float HEIGHT))).
  destruct (Py.leb _ _); rewrite Hm; reflexivity.
Qed.

(** On an integer the float remainder is the integer remainder. *)
Lemma fmod_pixels (n : Z) :
  Py.fmod (inject_Z n) 1200 == inject_Z (n mod 1200).
Proof.
  unfold Py.fmod.
  change 1200 with (inject_Z 1200) at 2.
  rewrite <- Zdiv_Qdiv.
  rewrite (Z.mod_eq n 1200) by discriminate.
  unfold Z.sub. rewrite inject_Z_plus, inject_Z_opp, inject_Z_mult.
  change (inject_Z 1200) with 1200. ring.
Qed.

Lemma reflect_pixels (n : Z) :
  GameM.reflect (inject_Z n)
  == inject_Z (if (n mod 1200 <=? 600)%Z then n mod 1200
               else (1200 - n mod 1200)%Z).
Proof.
  destruct (reflect_of_mod (inject_Z n) _ (fmod_pixels n)) as [Rlo Rhi].
  destruct (_ <=? _)%Z eqn:E.
  - apply Z.leb_le in E. apply Rlo.
    rewrite Zle_Qle in E. exact E.
  - apply Z.leb_gt in E. rewrite Rhi.
    + unfold Z.sub. rewrite inject_Z_plus, inject_Z_opp. ring.
    + rewrite Zlt_Qlt in E. exact E.
Qed.

End ReflectPixels.

(** X14. The fold of the prediction on whole pixels, for integers of
    magnitude at most 2^53 (which a float holds exactly): the fold of [n]
    is [m = n mod 1200] when [m <= 600] and [1200 - m] otherwise; it is
    [n] itself on [0, HEIGHT], the same for [-n] as for [n], and the same
    for [n + 1200 * k] as for [n]. *)
Theorem reflect_on_pixels (n : Z) :
  Z.abs n <= 2 ^ 53 ->
  (GameM.reflect (Py.float n)
   == Py.float (if n mod (2 * HEIGHT) <=? HEIGHT then n mod (2 * HEIGHT)
                else 2 * HEIGHT - n mod (2 * HEIGHT)))%Q /\
  (0 <= n <= HEIGHT -> (GameM.reflect (Py.float n) == Py.float n)%Q) /\
  (GameM.reflect (Py.float (- n)) == GameM.reflect (Py.float n))%Q /\
  (forall k : Z,
      Z.abs (n + 2 * HEIGHT * k) <= 2 ^ 53 ->
      (GameM.reflect (Py.float (n + 2 * HEIGHT * k))
       == GameM.reflect (Py.float n))%Q).
Proof.
  intros _. unfold Py.float.
  change (2 * HEIGHT) with 1200. change HEIGHT with 600.
  split; [apply reflect_pixels |].
  split; [| split].
  - intros [H0 H1]. rewrite reflect_pixels.
    rewrite Z.mod_small by lia.
    replace (n <=? 600) with true by (symmetry; apply Z.leb_le; lia).
    reflexivity.
  - rewrite inject_Z_opp.
    apply (reflect_triangular (inject_Z n)).
  - intros k _. rewrite inject_Z_plus, inject_Z_mult.
    apply (reflect_triangular (inject_Z n)).
Qed.

Lemma reflect_on_pixels_witness :
  (GameM.reflect (Py.float (-100)) == GameM.reflect (Py.float 100))%Q /\
  (GameM.reflect (Py.float 700) == Py.float 500)%Q.
Proof.
  assert (H1 : Z.abs 100 <= 2 ^ 53) by (vm_compute; discriminate).
  assert (H2 : Z.abs 700 <= 2 ^ 53) by (vm_compute; discriminate).
  split.
  - exact (proj1 (proj2 (proj2 (reflect_on_pixels 100 H1)))).
  - exact (proj1 (reflect_on_pixels 700 H2)).
Defined.

(** X15. For a ball moving at a speed of play ([420 <= |vel.x| <= 720],
    [|vel.y| <= 520]) whose centre y is in [0, HEIGHT], and a target x
    that is a C int, the prediction does not raise and lies in
    [0, HEIGHT]. *)
Theorem predict_in_field_at_speed (g : Game) (x : Z) :
  vel_in_play (ball g) ->
  0 <= centery (ball_rect (ball g)) <= HEIGHT ->
  CInt.INT_MIN <= x <= CInt.INT_MAX ->
  exists y : Q,
    GameC._predict_ball_y_at_x g x = Ok y /\ (0 <= y <= Py.float HEIGHT)%Q.
Proof.
  intros _ Hc _. exists (GameM._predict_ball_y_at_x g x).
  split; [apply predict_refines | apply predict_in_field, Hc].
Qed.

Lemma predict_in_field_at_speed_witness :
  exists y : Q,
    GameC._predict_ball_y_at_x (game_with_vel 420 (-512)) 770 = Ok y /\
    (0 <= y <= Py.float HEIGHT)%Q.
Proof.
  apply (predict_in_field_at_speed (game_with_vel 420 (-512)) 770).
  - repeat split; vm_compute; discriminate.
  - split; vm_compute; discriminate.
  - split; vm_compute; discriminate.
Defined.
